(** * The Langflow agent executor (agent_executor.py)

    A shallow embedding of [LangflowAgentExecutor]: the response extractor
    [_extract_message_text], the workflow client [_call_langflow], and the
    task lifecycle of [execute] and [cancel], followed by the properties the
    specification states about them.

    Python values are embedded as data ([json], [exn]); a Python call that
    may raise returns an [outcome]; code that enqueues events or talks to
    the remote engine runs in the state-and-exception monad [Py] over a
    [World] made of the event queue and the log of POST requests issued. *)

From Stdlib Require Import Floats Ascii.
From stdpp Require Import base strings list gmap pretty.

Set Warnings "-register-all".

(** Let [cbn] compute the append of string literals. *)
#[local] Arguments String.append !_ _ / : simpl nomatch.

(** ** Python values *)

(** What [response.json()] yields, and what [dict.get] navigates: [None],
    [bool], [int], [float], [str], [list] and [dict] with string keys. *)
Inductive json :=
| JNull
| JBool (b : bool)
| JInt (z : Z)
| JFloat (f : float)
| JString (s : string)
| JArray (xs : list json)
| JObject (kvs : gmap string json).

(** [type(v).__name__], as it appears in Python's error messages. *)
Definition type_name (v : json) : string :=
  match v with
  | JNull => "NoneType"
  | JBool _ => "bool"
  | JInt _ => "int"
  | JFloat _ => "float"
  | JString _ => "str"
  | JArray _ => "list"
  | JObject _ => "dict"
  end.

(** [bool(s)] for a [str]: the empty string is falsy. *)
Definition str_truthy (s : string) : bool := negb (String.eqb s "").

(** Python truthiness, [bool(v)]: [None], [False], zero, and the empty
    string, list and dict are falsy. *)
Definition truthy (v : json) : bool :=
  match v with
  | JNull => false
  | JBool b => b
  | JInt z => negb (z =? 0)%Z
  | JFloat f => negb (PrimFloat.eqb f 0%float)
  | JString s => str_truthy s
  | JArray xs => negb (Nat.eqb (length xs) 0)
  | JObject kvs => negb (Nat.eqb (size kvs) 0)
  end.

(** ** Exceptions *)

(** The exception classes the executor meets, each with the text [str(e)]
    gives.  [HTTPError] is the subclass of [RequestException] raised by
    [raise_for_status]; [JSONDecodeError] is the one [Response.json()]
    raises, a [RequestException] and a [ValueError] at once;
    [ValidationError] is pydantic's, raised by the a2a types on a field of
    the wrong type; a [KeyError] prints the repr of its key. *)
Inductive exn :=
| Exception (msg : string)
| ValueError (msg : string)
| AttributeError (msg : string)
| TypeError (msg : string)
| IndexError (msg : string)
| KeyError (key : string)
| RequestException (msg : string)
| HTTPError (msg : string)
| JSONDecodeError (msg : string)
| ValidationError (msg : string).

Definition str (e : exn) : string :=
  match e with
  | Exception msg | ValueError msg | AttributeError msg | TypeError msg
  | IndexError msg | RequestException msg | HTTPError msg
  | JSONDecodeError msg | ValidationError msg => msg
  | KeyError key => key
  end.

(** [isinstance(e, requests.exceptions.RequestException)]. *)
Definition is_RequestException (e : exn) : bool :=
  match e with
  | RequestException _ | HTTPError _ | JSONDecodeError _ => true
  | _ => false
  end.

(** [isinstance(e, ValueError)]. *)
Definition is_ValueError (e : exn) : bool :=
  match e with ValueError _ | JSONDecodeError _ => true | _ => false end.

(** The result of a Python call: a value, or an exception on its way up. *)
Inductive outcome (A : Type) :=
| Returned (a : A)
| Raised (e : exn).
Arguments Returned {A} a.
Arguments Raised {A} e.

#[global] Instance outcome_ret : MRet outcome := fun A a => Returned a.
#[global] Instance outcome_bind : MBind outcome := fun A B k m =>
  match m with
  | Returned a => k a
  | Raised e => Raised e
  end.

(** [try: body / except Exception as e: handler(e)] for pure code. *)
Definition try_except {A} (body : outcome A) (handler : exn -> outcome A) : outcome A :=
  match body with
  | Returned a => Returned a
  | Raised e => handler e
  end.

(** ** The dict and sequence operations the extractor uses *)

(** [d.get(key, default)]: only a dict has [get]. *)
Definition py_get (d : json) (key : string) (default : json) : outcome json :=
  match d with
  | JObject kvs =>
      Returned (match kvs !! key with Some v => v | None => default end)
  | _ => Raised (AttributeError ("'" +:+ type_name d +:+ "' object has no attribute 'get'"))
  end.

(** [len(v)]: defined on [str], [list] and [dict].  A [str] is counted in
    bytes here; the extractor only asks whether the length is positive. *)
Definition py_len (v : json) : outcome nat :=
  match v with
  | JString s => Returned (String.length s)
  | JArray xs => Returned (length xs)
  | JObject kvs => Returned (size kvs)
  | _ => Raised (TypeError ("object of type '" +:+ type_name v +:+ "' has no len()"))
  end.

(** [v[0]].  A dict decoded from JSON has string keys only, so the integer
    key [0] is never there. *)
Definition py_getitem0 (v : json) : outcome json :=
  match v with
  | JArray (x :: _) => Returned x
  | JArray [] => Raised (IndexError "list index out of range")
  | JString (String c _) => Returned (JString (String c ""))
  | JString "" => Raised (IndexError "string index out of range")
  | JObject _ => Raised (KeyError "0")
  | _ => Raised (TypeError ("'" +:+ type_name v +:+ "' object is not subscriptable"))
  end.

(** The condition [v and len(v) > 0]: [len] is only reached for a truthy [v]. *)
Definition and_len_positive (v : json) : outcome bool :=
  if truthy v then n ← py_len v; mret (bool_decide (0 < n)) else mret false.

(** ** The response extractor *)

Definition no_message_text : string := "No message text found in response".

(** The [try] block of [_extract_message_text]. *)
Definition extract_body (response : json) : outcome json :=
  outputs ← py_get response "outputs" (JArray []);
  nonempty ← and_len_positive outputs;
  if nonempty : bool then
    first_output ← py_getitem0 outputs;
    results ← py_get first_output "outputs" (JArray []);
    nonempty' ← and_len_positive results;
    if nonempty' : bool then
      first_result ← py_getitem0 results;
      results_field ← py_get first_result "results" (JObject ∅);
      message_data ← py_get results_field "message" (JObject ∅);
      text ← py_get message_data "text" (JString "");
      if truthy text then mret text else mret (JString no_message_text)
    else mret (JString no_message_text)
  else mret (JString no_message_text).

Definition _extract_message_text (response : json) : outcome json :=
  try_except (extract_body response)
    (fun e => mret (JString ("Error extracting response: " +:+ str e))).

(** ** The a2a protocol types the executor builds *)

Inductive TaskState :=
| submitted | working | input_required | completed | canceled | failed
| rejected | auth_required | unknown.

Inductive Role := agent | user.

Module Message.
Record t := mk {
  role : Role;
  text : string;
  contextId : option string;
  taskId : option string
}.
End Message.

Module Task.
Record t := mk {
  id : string;
  contextId : string;
  state : TaskState
}.
End Task.

Module TaskStatus.
Record t := mk {
  state : TaskState;
  message : option Message.t
}.
End TaskStatus.

Module TaskStatusUpdateEvent.
Record t := mk {
  status : TaskStatus.t;
  final : bool;
  contextId : string;
  taskId : string
}.
End TaskStatusUpdateEvent.

Module Artifact.
Record t := mk {
  name : string;
  description : string;
  text : string
}.
End Artifact.

Module TaskArtifactUpdateEvent.
Record t := mk {
  artifact : Artifact.t;
  contextId : string;
  taskId : string
}.
End TaskArtifactUpdateEvent.

(** What [EventQueue.enqueue_event] accepts from this executor. *)
Inductive Event :=
| EvTask (task : Task.t)
| EvStatus (ev : TaskStatusUpdateEvent.t)
| EvArtifact (ev : TaskArtifactUpdateEvent.t).

(** [a2a.utils.new_agent_text_message(text, context_id, task_id)]; the
    random [messageId] it draws is not part of the model. *)
Definition new_agent_text_message (text context_id task_id : string) : Message.t :=
  {| Message.role := agent;
     Message.text := text;
     Message.contextId := Some context_id;
     Message.taskId := Some task_id |}.

Module RequestContext.
Record t := mk {
  get_user_input : string;
  current_task : option Task.t;
  message : option Message.t
}.
End RequestContext.

(** ** The requests library, as the client uses it *)

Module Request.
(** The arguments of one [requests.post(url, json=, headers=, params=)]. *)
Record t := mk {
  url : string;
  json : json;
  headers : gmap string string;
  params : gmap string string
}.
End Request.

Module Response.
(** A [requests.Response]: its status line, the URL it came from, and
    what its [json()] method does (the decoded body, or the decoding
    error). *)
Record t := mk {
  status_code : Z;
  reason : string;
  url : string;
  json : outcome json
}.

(** [Response.raise_for_status()]: an [HTTPError] for a 4xx (client
    error) or 5xx (server error) status, nothing otherwise. *)
Definition raise_for_status (r : t) : outcome unit :=
  let http_error_msg :=
    if bool_decide (400 ≤ status_code r < 500)%Z then
      pretty (status_code r) +:+ " Client Error: " +:+ reason r +:+ " for url: " +:+ url r
    else if bool_decide (500 ≤ status_code r < 600)%Z then
      pretty (status_code r) +:+ " Server Error: " +:+ reason r +:+ " for url: " +:+ url r
    else "" in
  if str_truthy http_error_msg then Raised (HTTPError http_error_msg)
  else Returned ().
End Response.

(** ** The world the executor acts on *)

(** The event queue, in publish order, and the POST requests issued so
    far, in order. *)
Record World := mkWorld {
  queue : list Event;
  posts : list Request.t
}.

(** Python code with effects: it runs from a world, ends by returning or
    raising, and leaves a world behind either way. *)
Definition Py (A : Type) : Type := World -> outcome A * World.

#[global] Instance Py_ret : MRet Py := fun A a w => (Returned a, w).
#[global] Instance Py_bind : MBind Py := fun A B k m w =>
  match m w with
  | (Returned a, w') => k a w'
  | (Raised e, w') => (Raised e, w')
  end.

Definition raise {A} (e : exn) : Py A := fun w => (Raised e, w).

(** A pure call made from effectful code. *)
Definition lift {A} (o : outcome A) : Py A := fun w => (o, w).

(** [try: body / except Exception as e: handler(e)]; every [exn] is an
    [Exception], and what the body did before raising stays done. *)
Definition try_except_Py {A} (body : Py A) (handler : exn -> Py A) : Py A := fun w =>
  match body w with
  | (Returned a, w') => (Returned a, w')
  | (Raised e, w') => handler e w'
  end.

(** [await event_queue.enqueue_event(event)]: the queue is append-only. *)
Definition enqueue_event (event : Event) : Py unit := fun w =>
  (Returned (), mkWorld (queue w ++ [event]) (posts w)).

(** [str.rstrip(chars)]: drop the longest suffix made of characters of [chars]. *)
Fixpoint rstrip (chars s : string) : string :=
  match s with
  | "" => ""
  | String c s' =>
      match rstrip chars s' with
      | "" => if bool_decide (c ∈ String.list_ascii_of_string chars) then "" else String c ""
      | r => String c r
      end
  end.

(** ** LangflowAgentExecutor *)

Record LangflowAgentExecutor := mkExecutor {
  langflow_url : string;
  api_key : option string
}.

(** [LangflowAgentExecutor.__init__]. *)
Definition __init__ (langflow_url : string) (api_key : option string)
  : outcome LangflowAgentExecutor :=
  if negb (str_truthy langflow_url) then
    Raised (ValueError "langflow_url is required")
  else Returned (mkExecutor (rstrip "/" langflow_url) api_key).

(** ** The entry points (main.py and agents/simple_agent/main.py) *)

(** [bool(v)] for an [Optional[str]]: [None] and the empty string are falsy. *)
Definition opt_truthy (o : option string) : bool :=
  match o with
  | Some s => str_truthy s
  | None => false
  end.

(** [os.getenv(key)] and [os.getenv(key, default)], over [os.environ]. *)
Definition getenv (environ : gmap string string) (key : string) : option string :=
  environ !! key.

Definition getenv_default (environ : gmap string string) (key default : string)
  : string :=
  match environ !! key with
  | Some value => value
  | None => default
  end.

(** [int(x)] for an [Optional[str]]: [int(None)] is a [TypeError]; the
    parsing of a string, [py_int], is Python's own and is taken as given. *)
Definition int_of (py_int : string -> outcome Z) (x : option string) : outcome Z :=
  match x with
  | Some s => py_int s
  | None =>
      Raised (TypeError
        "int() argument must be a string, a bytes-like object or a real number, not 'NoneType'")
  end.

(** What an entry-point module has defined once it is loaded without
    error: its four settings, the URL it puts on the agent card, and the
    executor it hands to the request handler.  The static skill and card
    texts, and the server objects built around the executor, are left out. *)
Record Startup := mkStartup {
  LANGFLOW_URL : string;
  LANGFLOW_API_KEY : option string;
  A2A_SERVER_HOST : string;
  A2A_SERVER_PORT : Z;
  agent_card_url : string;
  agent_executor : LangflowAgentExecutor
}.

Module Main.
(** The module body of main.py, top to bottom. *)
Definition load (py_int : string -> outcome Z) (environ : gmap string string)
  : outcome Startup :=
  let LANGFLOW_URL := getenv environ "LANGFLOW_URL" in
  let LANGFLOW_API_KEY := getenv environ "LANGFLOW_API_KEY" in
  let A2A_SERVER_HOST := getenv_default environ "A2A_SERVER_HOST" "0.0.0.0" in
  A2A_SERVER_PORT ← int_of py_int (Some (getenv_default environ "A2A_SERVER_PORT" "9999"));
  if negb (opt_truthy LANGFLOW_URL) then
    Raised (ValueError "LANGFLOW_URL environment variable is required")
  else
    let url := "http://localhost:" +:+ pretty A2A_SERVER_PORT +:+ "/" in
    executor ← __init__ (default "" LANGFLOW_URL) LANGFLOW_API_KEY;
    mret {| LANGFLOW_URL := default "" LANGFLOW_URL;
            LANGFLOW_API_KEY := LANGFLOW_API_KEY;
            A2A_SERVER_HOST := A2A_SERVER_HOST;
            A2A_SERVER_PORT := A2A_SERVER_PORT;
            agent_card_url := url;
            agent_executor := executor |}.
End Main.

Module SimpleAgentMain.
(** The module body of agents/simple_agent/main.py, top to bottom. *)
Definition load (py_int : string -> outcome Z) (environ : gmap string string)
  : outcome Startup :=
  let LANGFLOW_URL := getenv environ "LANGFLOW_URL" in
  let LANGFLOW_API_KEY := getenv environ "LANGFLOW_API_KEY" in
  let A2A_SERVER_HOST := getenv environ "A2A_SERVER_HOST" in
  A2A_SERVER_PORT ← int_of py_int (getenv environ "A2A_SERVER_PORT");
  if negb (opt_truthy LANGFLOW_URL) then
    Raised (ValueError "`LANGFLOW_URL` environment variable is required")
  else if negb (opt_truthy A2A_SERVER_HOST) then
    Raised (ValueError "`A2A_SERVER_HOST` environment variable is required")
  else if (A2A_SERVER_PORT =? 0)%Z then
    Raised (ValueError "`A2A_SERVER_PORT` environment variable is required")
  else
    let url := "http://localhost:" +:+ pretty A2A_SERVER_PORT +:+ "/" in
    executor ← __init__ (default "" LANGFLOW_URL) LANGFLOW_API_KEY;
    mret {| LANGFLOW_URL := default "" LANGFLOW_URL;
            LANGFLOW_API_KEY := LANGFLOW_API_KEY;
            A2A_SERVER_HOST := default "" A2A_SERVER_HOST;
            A2A_SERVER_PORT := A2A_SERVER_PORT;
            agent_card_url := url;
            agent_executor := executor |}.
End SimpleAgentMain.

Section Executor.

(** [a2a.utils.new_task]: builds the task for an inbound message that
    belongs to none, drawing fresh identifiers where the message has none,
    or raises on a message it refuses (an empty text part). *)
Variable new_task : Message.t -> outcome Task.t.

(** The remote engine seen through [requests.post]: the reply to a
    request, or the exception the call raises (a [RequestException]:
    connection refused, timeout, malformed URL). *)
Variable requests_post : Request.t -> outcome Response.t.

(** The text of the [ValidationError] pydantic raises when a value that is
    not a [str] is given as the text of a text part; the wording is
    pydantic's and is taken as given. *)
Variable validation_error_text : json -> string.

(** [a2a.utils.new_text_artifact(name, description, text)]: the text part
    it builds takes a [str] only, and any other value is refused with a
    [ValidationError].  The random [artifactId] is not part of the model. *)
Definition new_text_artifact (name description : string) (text : json)
  : outcome Artifact.t :=
  match text with
  | JString s =>
      Returned {| Artifact.name := name;
                  Artifact.description := description;
                  Artifact.text := s |}
  | _ => Raised (ValidationError (validation_error_text text))
  end.

(** [requests.post(...)], recorded in the world. *)
Definition post (req : Request.t) : Py Response.t := fun w =>
  (requests_post req, mkWorld (queue w) (posts w ++ [req])).

(** The request [_call_langflow] assembles: [url], [payload], [headers]
    and [params]. *)
Definition langflow_request (self : LangflowAgentExecutor)
    (input_value : string) (session_id : option string) : Request.t :=
  let url := langflow_url self in
  let payload := JObject (<["input_value" := JString input_value]>
                         (<["output_type" := JString "chat"]>
                         {[ "input_type" := JString "chat" ]})) in
  let headers : gmap string string := {[ "Content-Type" := "application/json" ]} in
  let headers :=
    match api_key self with
    | Some key => if str_truthy key
                  then <["Authorization" := "Bearer " +:+ key]> headers
                  else headers
    | None => headers
    end in
  let params : gmap string string := ∅ in
  let params :=
    match session_id with
    | Some sid => if str_truthy sid
                  then <["session_id" := sid]> params
                  else params
    | None => params
    end in
  {| Request.url := url;
     Request.json := payload;
     Request.headers := headers;
     Request.params := params |}.

(** [_call_langflow]: one POST, [raise_for_status], then [json()].  Both
    [except] clauses log and re-raise; the logger is not modelled. *)
Definition _call_langflow (self : LangflowAgentExecutor)
    (input_value : string) (session_id : option string) : Py json :=
  try_except_Py
    (response ← post (langflow_request self input_value session_id);
     _ ← lift (Response.raise_for_status response);
     result ← lift (Response.json response);
     mret result)
    (fun e =>
       if is_RequestException e then raise e
       else if is_ValueError e then raise e
       else raise e).

(** [execute].  The coroutine is run to its end: each [await] of
    [enqueue_event] completes before the next statement, and the log lines
    are left out.  The guard on the message, [new_task] and the enqueuing of
    the new task stand before the [try]; the artifact is built, inside the
    [try], before the event that carries it. *)
Definition execute (self : LangflowAgentExecutor) (context : RequestContext.t)
  : Py unit :=
  let query := RequestContext.get_user_input context in
  let task := RequestContext.current_task context in
  match RequestContext.message context with
  | None => raise (Exception "No message in context")
  | Some message =>
      task ← match task with
             | Some task => mret task
             | None =>
                 task ← lift (new_task message);
                 _ ← enqueue_event (EvTask task);
                 mret task
             end;
      try_except_Py
        (_ ← enqueue_event
               (EvStatus
                  {| TaskStatusUpdateEvent.status :=
                       {| TaskStatus.state := working;
                          TaskStatus.message :=
                            Some (new_agent_text_message
                                    "Processing your request with Langflow..."
                                    (Task.contextId task)
                                    (Task.id task)) |};
                     TaskStatusUpdateEvent.final := false;
                     TaskStatusUpdateEvent.contextId := Task.contextId task;
                     TaskStatusUpdateEvent.taskId := Task.id task |});
         response ← _call_langflow self query (Some (Task.contextId task));
         response_text ← lift (_extract_message_text response);
         artifact ← lift (new_text_artifact "Langflow Response"
                            ("Response from Langflow for query: " +:+ query)
                            response_text);
         _ ← enqueue_event
               (EvArtifact
                  {| TaskArtifactUpdateEvent.artifact := artifact;
                     TaskArtifactUpdateEvent.contextId := Task.contextId task;
                     TaskArtifactUpdateEvent.taskId := Task.id task |});
         enqueue_event
           (EvStatus
              {| TaskStatusUpdateEvent.status :=
                   {| TaskStatus.state := completed;
                      TaskStatus.message := None |};
                 TaskStatusUpdateEvent.final := true;
                 TaskStatusUpdateEvent.contextId := Task.contextId task;
                 TaskStatusUpdateEvent.taskId := Task.id task |}))
        (fun e =>
           enqueue_event
             (EvStatus
                {| TaskStatusUpdateEvent.status :=
                     {| TaskStatus.state := failed;
                        TaskStatus.message :=
                          Some (new_agent_text_message
                                  ("Error processing request: " +:+ str e)
                                  (Task.contextId task)
                                  (Task.id task)) |};
                   TaskStatusUpdateEvent.final := true;
                   TaskStatusUpdateEvent.contextId := Task.contextId task;
                   TaskStatusUpdateEvent.taskId := Task.id task |}))
  end.

(** [cancel]. *)
Definition cancel (context : RequestContext.t) : Py unit :=
  raise (Exception "Cancel not supported for Langflow agent").

(** ** Reading the events *)

(** The events [execute] builds for a task. *)
Definition working_event (task : Task.t) : Event :=
  EvStatus
    {| TaskStatusUpdateEvent.status :=
         {| TaskStatus.state := working;
            TaskStatus.message :=
              Some (new_agent_text_message
                      "Processing your request with Langflow..."
                      (Task.contextId task) (Task.id task)) |};
       TaskStatusUpdateEvent.final := false;
       TaskStatusUpdateEvent.contextId := Task.contextId task;
       TaskStatusUpdateEvent.taskId := Task.id task |}.

Definition artifact_event (task : Task.t) (query : string) (response_text : string) : Event :=
  EvArtifact
    {| TaskArtifactUpdateEvent.artifact :=
         {| Artifact.name := "Langflow Response";
            Artifact.description := "Response from Langflow for query: " +:+ query;
            Artifact.text := response_text |};
       TaskArtifactUpdateEvent.contextId := Task.contextId task;
       TaskArtifactUpdateEvent.taskId := Task.id task |}.

Definition completed_event (task : Task.t) : Event :=
  EvStatus
    {| TaskStatusUpdateEvent.status :=
         {| TaskStatus.state := completed; TaskStatus.message := None |};
       TaskStatusUpdateEvent.final := true;
       TaskStatusUpdateEvent.contextId := Task.contextId task;
       TaskStatusUpdateEvent.taskId := Task.id task |}.

Definition failed_event (task : Task.t) (e : exn) : Event :=
  EvStatus
    {| TaskStatusUpdateEvent.status :=
         {| TaskStatus.state := failed;
            TaskStatus.message :=
              Some (new_agent_text_message
                      ("Error processing request: " +:+ str e)
                      (Task.contextId task) (Task.id task)) |};
       TaskStatusUpdateEvent.final := true;
       TaskStatusUpdateEvent.contextId := Task.contextId task;
       TaskStatusUpdateEvent.taskId := Task.id task |}.

(** The [final] flag of an event; only a status update has one. *)
Definition is_final (ev : Event) : bool :=
  match ev with
  | EvStatus s => TaskStatusUpdateEvent.final s
  | EvTask _ | EvArtifact _ => false
  end.

(** The [(taskId, contextId)] an event carries. *)
Definition event_ids (ev : Event) : string * string :=
  match ev with
  | EvTask t => (Task.id t, Task.contextId t)
  | EvStatus s => (TaskStatusUpdateEvent.taskId s, TaskStatusUpdateEvent.contextId s)
  | EvArtifact a => (TaskArtifactUpdateEvent.taskId a, TaskArtifactUpdateEvent.contextId a)
  end.

(** The task an execution works on: the current one, or the one
    [new_task] makes from the inbound message, if it makes one. *)
Definition task_of (context : RequestContext.t) (message : Message.t)
  : outcome Task.t :=
  match RequestContext.current_task context with
  | Some task => Returned task
  | None => new_task message
  end.

(** The events that come before the working status of [task]: the task
    itself, when the context had none and it was newly made. *)
Definition task_announcement (context : RequestContext.t) (task : Task.t)
  : list Event :=
  match RequestContext.current_task context with
  | Some _ => []
  | None => [EvTask task]
  end.

(** The events that follow the working status once the extractor has
    returned [text]: the artifact and the completed status for a string, the
    failed status with the validation error for any other value. *)
Definition events_after_extraction (task : Task.t) (query : string) (text : json)
  : list Event :=
  match text with
  | JString s => [artifact_event task query s; completed_event task]
  | _ => [failed_event task (ValidationError (validation_error_text text))]
  end.

(** What a call of [_call_langflow] yields, read off the remote's reply. *)
Definition call_result (self : LangflowAgentExecutor)
    (input_value : string) (session_id : option string) : outcome json :=
  match requests_post (langflow_request self input_value session_id) with
  | Returned response =>
      match Response.raise_for_status response with
      | Returned _ => Response.json response
      | Raised e => Raised e
      end
  | Raised e => Raised e
  end.

(** The world in which [execute] makes its call to [_call_langflow]: the
    task announcement and the working status are already on the queue. *)
Definition world_at_call (context : RequestContext.t) (task : Task.t)
    (w : World) : World :=
  mkWorld (queue w ++ task_announcement context task ++ [working_event task])
          (posts w).

Definition is_artifact (ev : Event) : bool :=
  match ev with
  | EvArtifact _ => true
  | EvTask _ | EvStatus _ => false
  end.


(** The state and the message text of a status event. *)
Definition status_state (ev : Event) : option TaskState :=
  match ev with
  | EvStatus s => Some (TaskStatus.state (TaskStatusUpdateEvent.status s))
  | EvTask _ | EvArtifact _ => None
  end.

Definition status_text (ev : Event) : option string :=
  match ev with
  | EvStatus s =>
      Message.text <$> TaskStatus.message (TaskStatusUpdateEvent.status s)
  | EvTask _ | EvArtifact _ => None
  end.

(** ** The response document, as the specification words it *)

(** A named field of an object. *)
Definition field (key : string) (v : json) : option json :=
  match v with
  | JObject kvs => kvs !! key
  | _ => None
  end.

(** The first element of a sequence. *)
Definition first_element (v : json) : option json :=
  match v with
  | JArray (x :: _) => Some x
  | _ => None
  end.

(** [outputs[0].outputs[0].results.message.text]. *)
Definition leaf_text (response : json) : option json :=
  outputs ← field "outputs" response;
  group ← first_element outputs;
  results ← field "outputs" group;
  result ← first_element results;
  results_field ← field "results" result;
  message ← field "message" results_field;
  field "text" message.

(** A field that is not there, or holds an empty (falsy) value such as
    [[]] or [""]. *)
Definition absent_or_empty (o : option json) : Prop :=
  match o with
  | None => True
  | Some v => truthy v = false
  end.

(** The leaf [results.message.text] of a result is missing: one of the
    three fields is absent, or the text is empty. *)
Definition text_missing (result : gmap string json) : Prop :=
  match result !! "results" with
  | None => True
  | Some (JObject results_field) =>
      match results_field !! "message" with
      | None => True
      | Some (JObject message) => absent_or_empty (message !! "text")
      | Some _ => False
      end
  | Some _ => False
  end.

(** A response document missing [outputs], [outputs[0].outputs], or the
    leaf text. *)
Inductive missing_text : json -> Prop :=
| missing_outputs kvs :
    absent_or_empty (kvs !! "outputs") ->
    missing_text (JObject kvs)
| missing_group_outputs kvs group rest :
    kvs !! "outputs" = Some (JArray (JObject group :: rest)) ->
    absent_or_empty (group !! "outputs") ->
    missing_text (JObject kvs)
| missing_leaf kvs group rest result rest' :
    kvs !! "outputs" = Some (JArray (JObject group :: rest)) ->
    group !! "outputs" = Some (JArray (JObject result :: rest')) ->
    text_missing result ->
    missing_text (JObject kvs).

(** ** The scenarios of the specification *)

(** The remote's expected reply,
    [{"outputs": [{"outputs": [{"results": {"message": {"text": text}}}]}]}]. *)
Definition reply_document (text : json) : json :=
  JObject {[ "outputs" := JArray [
    JObject {[ "outputs" := JArray [
      JObject {[ "results" :=
        JObject {[ "message" := JObject {[ "text" := text ]} ]} ]} ] ]} ] ]}.

(** [{"outputs": []}]. *)
Definition empty_outputs_document : json :=
  JObject {[ "outputs" := JArray [] ]}.

Definition calculator_query : string := "Calculate 4*4*(33/22)+12-20".

Definition inbound_message : Message.t :=
  Message.mk user calculator_query None None.

(** A [new_task] that, like a2a's, refuses a message whose text part is
    empty, and otherwise takes the identifiers of the message where it has
    them and fixed ones where it has none. *)
Definition sample_new_task (message : Message.t) : outcome Task.t :=
  if negb (str_truthy (Message.text message)) then
    Raised (ValueError "TextPart content cannot be empty")
  else
    Returned (Task.mk (default "task-1" (Message.taskId message))
                      (default "ctx-1" (Message.contextId message))
                      submitted).

(** A stand-in for the text of pydantic's validation error. *)
Definition sample_validation_error_text (v : json) : string :=
  "1 validation error for TextPart: Input should be a valid string, input_type="
  +:+ type_name v.

(** A message with an empty text, and a context that carries it and no
    current task. *)
Definition empty_message : Message.t := Message.mk user "" None None.

Definition context_with_empty_message : RequestContext.t :=
  RequestContext.mk "" None (Some empty_message).

Definition existing_task : Task.t := Task.mk "task-7" "ctx-7" working.

Definition context_with_task : RequestContext.t :=
  RequestContext.mk calculator_query (Some existing_task) (Some inbound_message).

Definition context_without_task : RequestContext.t :=
  RequestContext.mk calculator_query None (Some inbound_message).

Definition context_without_message : RequestContext.t :=
  RequestContext.mk "" None None.

(** A remote that answers every request with the given status line and
    body.  As over HTTP, the reply to a 1xx, 204 or 304 status has no body,
    so that decoding it fails; the URL of the reply is the URL called with
    the session id as its query string (the scenarios' ids need no
    escaping). *)
Definition remote_replies (status_code : Z) (reason : string) (body : outcome json)
  : Request.t -> outcome Response.t :=
  fun req =>
    Returned
      {| Response.status_code := status_code;
         Response.reason := reason;
         Response.url :=
           match Request.params req !! "session_id" with
           | Some sid => Request.url req +:+ "?session_id=" +:+ sid
           | None => Request.url req
           end;
         Response.json :=
           if bool_decide (100 ≤ status_code < 200)%Z
              || (status_code =? 204)%Z || (status_code =? 304)%Z
           then Raised (JSONDecodeError "Expecting value: line 1 column 1 (char 0)")
           else body |}.

Definition sample_executor : LangflowAgentExecutor :=
  mkExecutor "http://localhost:7860/api/v1/run/flow" (Some "sk-test").

Definition empty_world : World := mkWorld [] [].

(** A remote that cannot be reached. *)
Definition remote_down : Request.t -> outcome Response.t :=
  fun _ => Raised (RequestException "Connection refused").

(** A reply whose first result has no text and whose later result and
    later group have one. *)
Definition late_text_document : json :=
  JObject {[ "outputs" := JArray [
    JObject {[ "outputs" := JArray [
      JObject ∅;
      JObject {[ "results" :=
        JObject {[ "message" := JObject {[ "text" := JString "late" ]} ]} ]} ] ]};
    JObject {[ "outputs" := JArray [
      JObject {[ "results" :=
        JObject {[ "message" := JObject {[ "text" := JString "later" ]} ]} ]} ] ]} ] ]}.

(** [{"outputs": [{"outputs": [{"results": null}]}]}]. *)
Definition null_results_document : json :=
  JObject {[ "outputs" := JArray [
    JObject {[ "outputs" := JArray [ JObject {[ "results" := JNull ]} ] ]} ] ]}.

(** An environment with every variable the entry points read but the key. *)
Definition sample_environ : gmap string string :=
  <[ "LANGFLOW_URL" := "http://localhost:7860/api/v1/run/flow/" ]>
  (<[ "A2A_SERVER_HOST" := "127.0.0.1" ]>
  {[ "A2A_SERVER_PORT" := "8080" ]}).

(** An environment that sets the URL only. *)
Definition url_only_environ : gmap string string :=
  {[ "LANGFLOW_URL" := "http://localhost:7860/api/v1/run/flow" ]}.

(** A stand-in for [int] on the few port strings the scenarios use; any
    other string is refused the way [int] refuses a non-number. *)
Definition sample_int (s : string) : outcome Z :=
  if String.eqb s "9999" then Returned 9999%Z
  else if String.eqb s "8080" then Returned 8080%Z
  else if String.eqb s "0" then Returned 0%Z
  else Raised (ValueError ("invalid literal for int() with base 10: '" +:+ s +:+ "'")).

(** ** Properties of the response extractor *)

(** The condition [v and len(v) > 0] holds of non-empty lists, strings and
    dicts only. *)
Lemma and_len_positive_true (v : json) :
  and_len_positive v = Returned true ->
  (∃ x xs, v = JArray (x :: xs)) ∨ (∃ c s, v = JString (String c s)) ∨
  (∃ kvs, v = JObject kvs).
Proof.
  unfold and_len_positive.
  destruct v as [| | | |s|xs|kvs]; cbn; try discriminate;
    try (match goal with |- context [if ?b then _ else _] => destruct b end;
         discriminate).
  - destruct s; cbn; [discriminate|eauto].
  - destruct xs; cbn; [discriminate|eauto].
  - eauto.
Qed.

Lemma falsy_and_len (v : json) :
  truthy v = false -> and_len_positive v = Returned false.
Proof.
  intros Hv. unfold and_len_positive. rewrite Hv. reflexivity.
Qed.

(** When [outputs] is absent or empty the navigation stops at the first
    test. *)
Lemma extract_body_no_outputs (kvs : gmap string json) :
  absent_or_empty (kvs !! "outputs") ->
  extract_body (JObject kvs) = Returned (JString no_message_text).
Proof.
  unfold absent_or_empty, extract_body. cbn.
  destruct (kvs !! "outputs") as [v|]; cbn.
  - intros Hv. rewrite (falsy_and_len v Hv). reflexivity.
  - reflexivity.
Qed.

(** Past a non-empty [outputs] list, the navigation continues in its first
    element. *)
Lemma extract_body_group (kvs : gmap string json) (group rest : _) :
  kvs !! "outputs" = Some (JArray (group :: rest)) ->
  extract_body (JObject kvs) =
    (results ← py_get group "outputs" (JArray []);
     nonempty ← and_len_positive results;
     if nonempty : bool then
       first_result ← py_getitem0 results;
       results_field ← py_get first_result "results" (JObject ∅);
       message_data ← py_get results_field "message" (JObject ∅);
       text ← py_get message_data "text" (JString "");
       if truthy text then mret text else mret (JString no_message_text)
     else mret (JString no_message_text)).
Proof.
  intros Hout. unfold extract_body. cbn. rewrite Hout. reflexivity.
Qed.

(** Past a non-empty inner [outputs] list, what is left is the three [get]s
    on its first element. *)
Lemma extract_body_result (kvs group : gmap string json) rest result rest' :
  kvs !! "outputs" = Some (JArray (JObject group :: rest)) ->
  group !! "outputs" = Some (JArray (result :: rest')) ->
  extract_body (JObject kvs) =
    (results_field ← py_get result "results" (JObject ∅);
     message_data ← py_get results_field "message" (JObject ∅);
     text ← py_get message_data "text" (JString "");
     if truthy text then mret text else mret (JString no_message_text)).
Proof.
  intros Hout Hin. rewrite (extract_body_group _ _ _ Hout). cbn.
  rewrite Hin. reflexivity.
Qed.

Lemma extract_body_missing (response : json) :
  missing_text response ->
  extract_body response = Returned (JString no_message_text).
Proof.
  intros [kvs H | kvs group rest Hout H | kvs group rest result rest' Hout Hin H].
  - by apply extract_body_no_outputs.
  - rewrite (extract_body_group _ _ _ Hout). cbn.
    unfold absent_or_empty in H.
    destruct (group !! "outputs") as [v|]; cbn; [|reflexivity].
    rewrite (falsy_and_len v H). reflexivity.
  - rewrite (extract_body_result _ _ _ _ _ Hout Hin). cbn.
    unfold text_missing in H.
    destruct (result !! "results") as [[| | | | | |results_field]|];
      try contradiction; cbn; [|by rewrite !lookup_empty].
    destruct (results_field !! "message") as [[| | | | | |message]|];
      try contradiction; cbn; [|by rewrite lookup_empty].
    unfold absent_or_empty in H.
    destruct (message !! "text") as [text|]; cbn; [rewrite H|]; reflexivity.
Qed.

(** Whatever the [try] block returns is the fixed fallback or the truthy
    leaf text. *)
Lemma extract_body_returns (response v : json) :
  extract_body response = Returned v ->
  v = JString no_message_text ∨ (leaf_text response = Some v ∧ truthy v = true).
Proof.
  unfold extract_body, leaf_text.
  destruct response as [| | | | | |kvs]; try discriminate. cbn.
  destruct (kvs !! "outputs") as [outputs|]; cbn; [|intros [= <-]; by left].
  destruct (and_len_positive outputs) as [[]|] eqn:Hlen; cbn;
    [|intros [= <-]; by left|discriminate].
  apply and_len_positive_true in Hlen
    as [(group & rest & ->)|[(c & s & ->)|(m & ->)]]; cbn; try discriminate.
  destruct group as [| | | | | |group]; try discriminate. cbn.
  destruct (group !! "outputs") as [results|]; cbn; [|intros [= <-]; by left].
  destruct (and_len_positive results) as [[]|] eqn:Hlen; cbn;
    [|intros [= <-]; by left|discriminate].
  apply and_len_positive_true in Hlen
    as [(result & rest' & ->)|[(c & s & ->)|(m & ->)]]; cbn; try discriminate.
  destruct result as [| | | | | |result]; try discriminate. cbn.
  destruct (result !! "results") as [[| | | | | |results_field]|]; cbn;
    try discriminate; [|rewrite !lookup_empty; cbn; intros [= <-]; by left].
  destruct (results_field !! "message") as [[| | | | | |message]|]; cbn;
    try discriminate; [|rewrite !lookup_empty; cbn; intros [= <-]; by left].
  destruct (message !! "text") as [text|]; cbn; [|intros [= <-]; by left].
  destruct (truthy text) eqn:Htext; intros [= <-]; [right|left]; done.
Qed.

Lemma extract_message_text_returns (response : json) :
  ∃ text, _extract_message_text response = Returned text.
Proof.
  unfold _extract_message_text.
  destruct (extract_body response) as [text|e]; cbn; eauto.
Qed.

(** C5: when [outputs[0].outputs[0].results.message.text] is present and is
    a non-empty string [S], [_extract_message_text] returns exactly [S]. *)
Theorem extract_message_text_leaf (response : json) (S : string) :
  leaf_text response = Some (JString S) ->
  S ≠ "" ->
  _extract_message_text response = Returned (JString S).
Proof.
  intros Hleaf HS. unfold leaf_text in Hleaf.
  destruct response as [| | | | | |kvs]; try discriminate. cbn in Hleaf.
  destruct (kvs !! "outputs") as [[| | | | |[|group rest]|]|] eqn:Hout;
    try discriminate. cbn in Hleaf.
  destruct group as [| | | | | |group]; try discriminate. cbn in Hleaf.
  destruct (group !! "outputs") as [[| | | | |[|result rest']|]|] eqn:Hin;
    try discriminate. cbn in Hleaf.
  destruct result as [| | | | | |result]; try discriminate. cbn in Hleaf.
  destruct (result !! "results") as [[| | | | | |results_field]|] eqn:Hres;
    try discriminate. cbn in Hleaf.
  destruct (results_field !! "message") as [[| | | | | |message]|] eqn:Hmsg;
    try discriminate. cbn in Hleaf.
  unfold _extract_message_text.
  rewrite (extract_body_result _ _ _ _ _ Hout Hin). cbn.
  rewrite Hres. cbn. rewrite Hmsg. cbn. rewrite Hleaf. cbn.
  unfold str_truthy. destruct (String.eqb_spec S ""); [contradiction|reflexivity].
Qed.

(** C6: [_extract_message_text] returns for every response and never
    raises; on a document missing [outputs], [outputs[0].outputs] or the leaf
    text (empty list and empty string included) it returns the fixed fallback
    string; when the navigation raises, it returns a string that embeds the
    description of the error; and whenever the leaf text cannot be reached or
    is empty, what it returns is one of these two strings. *)
Theorem extract_message_text_total (response : json) :
  (∃ text, _extract_message_text response = Returned text) ∧
  (missing_text response ->
   _extract_message_text response =
     Returned (JString "No message text found in response")) ∧
  (∀ e, extract_body response = Raised e ->
        _extract_message_text response =
          Returned (JString ("Error extracting response: " +:+ str e))) ∧
  (absent_or_empty (leaf_text response) ->
   _extract_message_text response =
     Returned (JString "No message text found in response") ∨
   ∃ e, extract_body response = Raised e ∧
        _extract_message_text response =
          Returned (JString ("Error extracting response: " +:+ str e))).
Proof.
  repeat split; [apply extract_message_text_returns|..];
    unfold _extract_message_text.
  - intros H. rewrite (extract_body_missing _ H). reflexivity.
  - intros e He. rewrite He. reflexivity.
  - intros Hleaf. destruct (extract_body response) as [v|e] eqn:Hbody; cbn.
    + left. apply extract_body_returns in Hbody as [->|[Hv Htruthy]];
        [reflexivity|].
      rewrite Hv in Hleaf. cbn in Hleaf. congruence.
    + right. eauto.
Qed.

(** ** Properties of [rstrip] *)

(** [rstrip] removes a suffix, and only characters of [chars]. *)
Lemma rstrip_decompose (chars s : string) :
  ∃ tail,
    s = rstrip chars s +:+ tail ∧
    Forall (λ c, c ∈ String.list_ascii_of_string chars)
           (String.list_ascii_of_string tail).
Proof.
  induction s as [|a s IH]; cbn.
  - exists "". split; [reflexivity|constructor].
  - destruct IH as (tail & Hs & Htail).
    destruct (rstrip chars s) as [|b r] eqn:Hr.
    + cbn in Hs. subst tail. case_bool_decide as Ha.
      * exists (String a s). split; [reflexivity|]. cbn. by constructor.
      * exists s. split; [reflexivity|assumption].
    + exists tail. split; [|assumption]. cbn. cbn in Hs. by rewrite <- Hs.
Qed.

(** What [rstrip] leaves does not end in a character of [chars]. *)
Lemma rstrip_stops (chars s t : string) (c : Ascii.ascii) :
  rstrip chars s = t +:+ String c "" ->
  c ∉ String.list_ascii_of_string chars.
Proof.
  revert t. induction s as [|a s IH]; intros t; cbn.
  - destruct t; discriminate.
  - destruct (rstrip chars s) as [|b r] eqn:Hr.
    + case_bool_decide as Ha.
      * destruct t; discriminate.
      * destruct t as [|x [|y t]]; cbn; intros [= -> ]; try assumption.
    + destruct t as [|x t]; cbn; [discriminate|].
      intros [= _ Ht]. by apply (IH t).
Qed.

(** A string that does not end in a character of [chars] is left as it is. *)
Lemma rstrip_fixed (chars s : string) :
  (∀ t c, s = t +:+ String c "" -> c ∉ String.list_ascii_of_string chars) ->
  rstrip chars s = s.
Proof.
  induction s as [|a s IH]; intros Hend; cbn; [reflexivity|].
  rewrite IH.
  - destruct s as [|b r]; [|reflexivity].
    rewrite bool_decide_eq_false_2; [reflexivity|].
    by apply (Hend "" a).
  - intros t c ->. by apply (Hend (String a t) c).
Qed.

(** ** Properties of the workflow client *)

(** One call of [_call_langflow] issues exactly one POST, the assembled
    request, leaves the event queue alone, and yields [call_result]. *)
Lemma call_langflow_run (self : LangflowAgentExecutor)
    (input_value : string) (session_id : option string) (w : World) :
  _call_langflow self input_value session_id w =
    (call_result self input_value session_id,
     mkWorld (queue w) (posts w ++ [langflow_request self input_value session_id])).
Proof.
  unfold _call_langflow, call_result, try_except_Py, post, lift, raise.
  unfold mbind, Py_bind, mret, Py_ret.
  destruct (requests_post _) as [response|e]; cbn.
  - destruct (Response.raise_for_status response) as [[]|e]; cbn.
    + destruct (Response.json response) as [result|e]; cbn; [reflexivity|].
      by destruct e.
    + by destruct e.
  - by destruct e.
Qed.

Lemma raise_for_status_error (response : Response.t) :
  (400 ≤ Response.status_code response < 600)%Z ->
  ∃ msg, Response.raise_for_status response = Raised (HTTPError msg).
Proof.
  intros Hsc. unfold Response.raise_for_status, str_truthy.
  assert (Hmsg : ∀ p c rest q, String.eqb (p +:+ String c rest +:+ q) "" = false)
    by (by intros [|? ?] ? ? ?).
  case_bool_decide as Hclient; [|rewrite bool_decide_eq_true_2 by lia].
  all: cbv zeta; rewrite Hmsg; cbn; eauto.
Qed.

Lemma raise_for_status_ok (response : Response.t) :
  ¬ (400 ≤ Response.status_code response < 600)%Z ->
  Response.raise_for_status response = Returned ().
Proof.
  intros Hsc. unfold Response.raise_for_status, str_truthy.
  rewrite !bool_decide_eq_false_2 by lia. reflexivity.
Qed.

(** C7 (amended): when the remote replies with a 4xx or 5xx status,
    [_call_langflow] raises the [HTTPError] of [raise_for_status], a
    [RequestException], and returns no parsed document; a reply with any
    other status is not rejected on its status: the call yields whatever
    decoding the body yields. *)
Theorem call_langflow_error_status (self : LangflowAgentExecutor)
    (input_value : string) (session_id : option string) (w : World)
    (response : Response.t) :
  requests_post (langflow_request self input_value session_id) = Returned response ->
  ((400 ≤ Response.status_code response < 600)%Z ->
   ∃ msg, fst (_call_langflow self input_value session_id w) = Raised (HTTPError msg)
          ∧ is_RequestException (HTTPError msg) = true) ∧
  (¬ (400 ≤ Response.status_code response < 600)%Z ->
   fst (_call_langflow self input_value session_id w) = Response.json response).
Proof.
  intros Hpost. rewrite call_langflow_run. cbn. unfold call_result. rewrite Hpost.
  split; intros Hsc.
  - destruct (raise_for_status_error response Hsc) as [msg ->]. eauto.
  - rewrite (raise_for_status_ok response Hsc). reflexivity.
Qed.

(** C8 (amended): [_call_langflow] issues a single POST, to the configured
    URL with its trailing slashes stripped by the constructor: the URL
    called is the configured one minus a suffix made of slashes only, it
    never ends in a slash, nothing is appended to it, and it is the
    configured string itself whenever that does not end in a slash. *)
Theorem call_langflow_posts_to_stripped_url (configured : string)
    (key : option string) (self : LangflowAgentExecutor)
    (input_value : string) (session_id : option string) (w : World) :
  __init__ configured key = Returned self ->
  ∃ result req,
    _call_langflow self input_value session_id w =
      (result, mkWorld (queue w) (posts w ++ [req])) ∧
    Request.url req = rstrip "/" configured ∧
    (∃ slashes, configured = Request.url req +:+ slashes ∧
                Forall (λ c, c = "/"%char) (String.list_ascii_of_string slashes)) ∧
    (∀ t, Request.url req ≠ t +:+ "/") ∧
    ((∀ t, configured ≠ t +:+ "/") -> Request.url req = configured).
Proof.
  unfold __init__, str_truthy.
  destruct (String.eqb configured ""); cbn; [discriminate|].
  intros [= <-]. rewrite call_langflow_run.
  eexists _, _. split; [reflexivity|]. cbn. split; [reflexivity|].
  split; [|split].
  - destruct (rstrip_decompose "/" configured) as (tail & Hs & Htail).
    exists tail. split; [assumption|].
    eapply Forall_impl; [exact Htail|]. cbn. intros c Hc.
    by apply list_elem_of_singleton in Hc.
  - intros t Ht. apply rstrip_stops in Ht. apply Ht. cbn. by left.
  - intros Hend. apply rstrip_fixed. cbn. intros t c -> Hc.
    apply list_elem_of_singleton in Hc as ->. by apply (Hend t).
Qed.

(** C9: [cancel] always raises its "not supported" exception and leaves
    the event queue as it found it, whatever the context. *)
Theorem cancel_not_supported (context : RequestContext.t) (w : World) :
  cancel context w =
    (Raised (Exception "Cancel not supported for Langflow agent"), w) ∧
  queue (snd (cancel context w)) = queue w.
Proof.
  split; reflexivity.
Qed.

(** ** Properties of the task lifecycle *)

Lemma call_langflow_result (self : LangflowAgentExecutor)
    (input_value : string) (session_id : option string) (w : World) :
  fst (_call_langflow self input_value session_id w) =
    call_result self input_value session_id.
Proof.
  by rewrite call_langflow_run.
Qed.

(** What stands before the [try] can raise outward: a [new_task] that
    raises takes [execute] with it, before anything is enqueued or called. *)
Lemma execute_new_task_raises (self : LangflowAgentExecutor)
    (context : RequestContext.t) (message : Message.t) (w : World) (e : exn) :
  RequestContext.message context = Some message ->
  RequestContext.current_task context = None ->
  new_task message = Raised e ->
  execute self context w = (Raised e, w).
Proof.
  intros Hmsg Htask Hnew. unfold execute. rewrite Hmsg, Htask.
  unfold mbind, Py_bind, lift. cbn. rewrite Hnew. reflexivity.
Qed.

(** One run of [execute] on a context that carries a message, with a task
    at hand: it returns, having issued one POST and enqueued the
    announcement, the working status, and then what the outcome of the call
    and of the extraction decides. *)
Lemma execute_run (self : LangflowAgentExecutor) (context : RequestContext.t)
    (message : Message.t) (task : Task.t) (w : World) :
  RequestContext.message context = Some message ->
  task_of context message = Returned task ->
  ∃ evs,
    execute self context w =
      (Returned (),
       mkWorld (queue w ++ task_announcement context task
                        ++ working_event task :: evs)
               (posts w ++ [langflow_request self
                              (RequestContext.get_user_input context)
                              (Some (Task.contextId task))])) ∧
    match call_result self (RequestContext.get_user_input context)
            (Some (Task.contextId task)) with
    | Returned response =>
        ∃ text,
          _extract_message_text response = Returned text ∧
          evs = events_after_extraction task
                  (RequestContext.get_user_input context) text
    | Raised e => evs = [failed_event task e]
    end.
Proof.
  intros Hmsg Htask. unfold execute. rewrite Hmsg.
  unfold task_of in Htask. unfold task_announcement.
  set (query := RequestContext.get_user_input context).
  destruct (call_result self query (Some (Task.contextId task)))
    as [response|e] eqn:Hcall.
  - destruct (extract_message_text_returns response) as [text Htext].
    eexists. split; [|exists text; split; [exact Htext|reflexivity]].
    unfold mbind, Py_bind, mret, Py_ret, try_except_Py, enqueue_event, lift.
    destruct (RequestContext.current_task context) as [task'|];
      [injection Htask as ->|rewrite Htask]; cbn;
      rewrite call_langflow_run; cbn; fold query; rewrite Hcall, Htext; cbn;
      unfold events_after_extraction, new_text_artifact;
      unfold working_event, artifact_event, completed_event, failed_event;
      destruct text; cbn; rewrite <- ?app_assoc; reflexivity.
  - eexists. split; [|reflexivity].
    unfold mbind, Py_bind, mret, Py_ret, try_except_Py, enqueue_event, lift.
    destruct (RequestContext.current_task context) as [task'|];
      [injection Htask as ->|rewrite Htask]; cbn;
      rewrite call_langflow_run; cbn; fold query; rewrite Hcall; cbn;
      unfold working_event, failed_event;
      rewrite <- ?app_assoc; reflexivity.
Qed.

Lemma task_announcement_ids (context : RequestContext.t) (task : Task.t) :
  Forall (λ ev, event_ids ev = (Task.id task, Task.contextId task))
         (task_announcement context task).
Proof.
  unfold task_announcement.
  destruct (RequestContext.current_task context); repeat constructor.
Qed.

Lemma task_announcement_not_final (context : RequestContext.t) (task : Task.t) :
  List.filter is_final (task_announcement context task) = [].
Proof.
  unfold task_announcement.
  by destruct (RequestContext.current_task context).
Qed.

Lemma task_announcement_not_artifact (context : RequestContext.t) (task : Task.t) :
  Forall (λ ev, is_artifact ev = false) (task_announcement context task).
Proof.
  unfold task_announcement.
  destruct (RequestContext.current_task context); repeat constructor.
Qed.

(** The events after the working status end in one final status event,
    and hold no other final event. *)
Lemma events_after_extraction_final (task : Task.t) (query : string) (text : json) :
  ∃ evs last,
    events_after_extraction task query text = evs ++ [last] ∧
    List.filter is_final evs = [] ∧
    is_final last = true ∧ is_artifact last = false ∧
    (status_state last = Some completed ∨ status_state last = Some failed).
Proof.
  unfold events_after_extraction.
  destruct text as [| | | |s| |].
  5: { exists [artifact_event task query s], (completed_event task).
       repeat split. by left. }
  all: eexists [], _; split; [reflexivity|]; repeat split; by right.
Qed.

(** C1 (amended): on a context that carries an inbound message, and with a
    task at hand (the current task, or the one [new_task] returns), [execute]
    never raises: it returns after enqueuing, as its last event, a final
    status event, which is the failed one whenever something raised inside
    the [try]: the call to [_call_langflow], or the building of the artifact
    from an extracted value that is not a string.  What stands before the
    [try] raises outward, with nothing enqueued: the guard, on a context
    without a message, and [new_task], when it raises. *)
Theorem execute_raises_only_before_try (self : LangflowAgentExecutor)
    (context : RequestContext.t) (w : World) :
  (∀ message task,
     RequestContext.message context = Some message ->
     task_of context message = Returned task ->
     ∃ w' evs last,
       execute self context w = (Returned (), w') ∧
       queue w' = queue w ++ evs ++ [last] ∧
       is_final last = true ∧
       (status_state last = Some completed ∨ status_state last = Some failed) ∧
       (∀ e, fst (_call_langflow self (RequestContext.get_user_input context)
                    (Some (Task.contextId task))
                    (world_at_call context task w)) = Raised e ->
             last = failed_event task e) ∧
       (∀ response text,
          fst (_call_langflow self (RequestContext.get_user_input context)
                 (Some (Task.contextId task))
                 (world_at_call context task w)) = Returned response ->
          _extract_message_text response = Returned text ->
          (∀ s, text ≠ JString s) ->
          last = failed_event task
                   (ValidationError (validation_error_text text)))) ∧
  (RequestContext.message context = None ->
   execute self context w = (Raised (Exception "No message in context"), w)) ∧
  (∀ message e,
     RequestContext.message context = Some message ->
     RequestContext.current_task context = None ->
     new_task message = Raised e ->
     execute self context w = (Raised e, w)).
Proof.
  split; [|split].
  - intros message task Hmsg Htask.
    destruct (execute_run self context message task w Hmsg Htask)
      as (evs & Hrun & Hevs).
    rewrite Hrun. setoid_rewrite call_langflow_result.
    destruct (call_result _ _ _) as [response|e].
    + destruct Hevs as (text & Htext & ->).
      destruct (events_after_extraction_final task
                  (RequestContext.get_user_input context) text)
        as (evs & last & Hevs & _ & Hfinal & _ & Hstate).
      exists (mkWorld
                (queue w ++ task_announcement context task
                         ++ working_event task
                            :: events_after_extraction task
                                 (RequestContext.get_user_input context) text)
                (posts w ++ [langflow_request self
                               (RequestContext.get_user_input context)
                               (Some (Task.contextId task))])),
             (task_announcement context task ++ working_event task :: evs), last.
      split; [reflexivity|]. cbn [queue].
      split; [rewrite Hevs; by rewrite <- !app_assoc|].
      split; [exact Hfinal|]. split; [exact Hstate|].
      split; [intros e [=]|].
      intros response' text' [= <-] Htext' Hnot.
      rewrite Htext in Htext'. injection Htext' as <-.
      unfold events_after_extraction in Hevs.
      destruct text as [| | | |s| |];
        try (by apply (app_inj_tail []) in Hevs as [_ ->]).
      by destruct (Hnot s).
    + subst evs.
      eexists _, (task_announcement context task ++ [_]), _.
      split; [reflexivity|]. cbn.
      split; [by rewrite <- !app_assoc|].
      split; [reflexivity|]. split; [by right|].
      split; [by intros e' [= ->]|]. intros response text [=].
  - intros Hmsg. unfold execute. rewrite Hmsg. reflexivity.
  - intros message e. apply execute_new_task_raises.
Qed.

(** C2 (amended): when the call to [_call_langflow] succeeds and the text
    the extractor returns is a string, the events enqueued are, after the new
    task itself when the context carried no current task, exactly the working
    status (not final), the artifact with the extracted text, and the
    completed status (final), in that order, and each of them carries the
    task's [taskId] and [contextId]. *)
Theorem execute_success_events (self : LangflowAgentExecutor)
    (context : RequestContext.t) (message : Message.t) (task : Task.t)
    (w : World) (response : json) (text : string) :
  RequestContext.message context = Some message ->
  task_of context message = Returned task ->
  fst (_call_langflow self (RequestContext.get_user_input context)
         (Some (Task.contextId task))
         (world_at_call context task w)) = Returned response ->
  _extract_message_text response = Returned (JString text) ->
  ∃ w',
    execute self context w = (Returned (), w') ∧
    queue w' =
      queue w ++ task_announcement context task
              ++ [working_event task;
                  artifact_event task (RequestContext.get_user_input context) text;
                  completed_event task] ∧
    is_final (working_event task) = false ∧
    is_final (completed_event task) = true ∧
    Forall (λ ev, event_ids ev = (Task.id task, Task.contextId task))
      (task_announcement context task
         ++ [working_event task;
             artifact_event task (RequestContext.get_user_input context) text;
             completed_event task]).
Proof.
  intros Hmsg Htask Hcall Htext. rewrite call_langflow_result in Hcall.
  destruct (execute_run self context message task w Hmsg Htask)
    as (evs & Hrun & Hevs).
  rewrite Hcall in Hevs. destruct Hevs as (text' & Htext' & ->).
  rewrite Htext in Htext'. injection Htext' as <-.
  eexists. split; [exact Hrun|].
  split; [reflexivity|]. split; [reflexivity|]. split; [reflexivity|].
  apply Forall_app. split; [apply task_announcement_ids|].
  repeat constructor.
Qed.

(** C3 (amended): when the call to [_call_langflow] raises [e], the events
    enqueued are, after the new task itself when the context carried no
    current task, exactly the working status (not final) and the failed
    status (final); none of them is an artifact event, and the text of the
    failed status is ["Error processing request: "] followed by [str e]. *)
Theorem execute_failure_events (self : LangflowAgentExecutor)
    (context : RequestContext.t) (message : Message.t) (task : Task.t)
    (w : World) (e : exn) :
  RequestContext.message context = Some message ->
  task_of context message = Returned task ->
  fst (_call_langflow self (RequestContext.get_user_input context)
         (Some (Task.contextId task))
         (world_at_call context task w)) = Raised e ->
  ∃ w',
    execute self context w = (Returned (), w') ∧
    queue w' =
      queue w ++ task_announcement context task
              ++ [working_event task; failed_event task e] ∧
    is_final (working_event task) = false ∧
    is_final (failed_event task e) = true ∧
    status_state (failed_event task e) = Some failed ∧
    status_text (failed_event task e) =
      Some ("Error processing request: " +:+ str e) ∧
    Forall (λ ev, is_artifact ev = false)
      (task_announcement context task
         ++ [working_event task; failed_event task e]).
Proof.
  intros Hmsg Htask Hcall. rewrite call_langflow_result in Hcall.
  destruct (execute_run self context message task w Hmsg Htask)
    as (evs & Hrun & Hevs).
  rewrite Hcall in Hevs. subst evs.
  eexists. split; [exact Hrun|]. repeat (split; [reflexivity|]).
  apply Forall_app. split; [apply task_announcement_not_artifact|].
  repeat constructor.
Qed.

(** C4 (amended): an execution on a context that carries a message, with
    a task at hand (the current task, or the one [new_task] returns), makes
    exactly one call to [_call_langflow] (one POST, the request of that call,
    is added to the log) and enqueues exactly one event with [final = true];
    that event is a status event whose state is completed or failed, never
    an artifact event. *)
Theorem execute_one_call_one_final (self : LangflowAgentExecutor)
    (context : RequestContext.t) (message : Message.t) (task : Task.t)
    (w : World) :
  RequestContext.message context = Some message ->
  task_of context message = Returned task ->
  ∃ w' evs,
    execute self context w = (Returned (), w') ∧
    posts w' = posts w ++ [langflow_request self
                             (RequestContext.get_user_input context)
                             (Some (Task.contextId task))] ∧
    queue w' = queue w ++ evs ∧
    length (List.filter is_final evs) = 1 ∧
    (∀ ev, ev ∈ evs -> is_final ev = true ->
           is_artifact ev = false ∧
           (status_state ev = Some completed ∨ status_state ev = Some failed)).
Proof.
  intros Hmsg Htask.
  destruct (execute_run self context message task w Hmsg Htask)
    as (evs & Hrun & Hevs).
  assert (Hlast : ∃ before last,
            evs = before ++ [last] ∧ List.filter is_final before = [] ∧
            is_final last = true ∧ is_artifact last = false ∧
            (status_state last = Some completed ∨ status_state last = Some failed)).
  { destruct (call_result _ _ _) as [response|e].
    - destruct Hevs as (text & _ & ->). apply events_after_extraction_final.
    - subst evs. exists [], (failed_event task e). repeat split. by right. }
  destruct Hlast as (before & last & -> & Hbefore & Hfinal & Hart & Hstate).
  eexists _, _. split; [exact Hrun|]. split; [reflexivity|].
  split; [reflexivity|].
  assert (Hfilter : List.filter is_final
            (task_announcement context task
               ++ working_event task :: before ++ [last]) = [last]).
  { rewrite List.filter_app, task_announcement_not_final. cbn.
    rewrite List.filter_app, Hbefore. cbn. by rewrite Hfinal. }
  split; [by rewrite Hfilter|].
  intros ev Hev Hev_final.
  assert (Hin : ev ∈ List.filter is_final
            (task_announcement context task
               ++ working_event task :: before ++ [last])).
  { apply list_elem_of_In, List.filter_In. split; [by apply list_elem_of_In|done]. }
  rewrite Hfilter in Hin. apply list_elem_of_singleton in Hin as ->. done.
Qed.

(** C10 (amended): on a context that carries a message but no current
    task, when [new_task] returns a task for the message, [execute] enqueues
    that task as the first event, ahead of its working status; when
    [new_task] raises, the exception leaves [execute] and nothing is
    enqueued. *)
Theorem execute_announces_new_task (self : LangflowAgentExecutor)
    (context : RequestContext.t) (message : Message.t) (w : World) :
  RequestContext.message context = Some message ->
  RequestContext.current_task context = None ->
  (∀ task,
     new_task message = Returned task ->
     ∃ result w' rest,
       execute self context w = (result, w') ∧
       queue w' = queue w ++ EvTask task :: working_event task :: rest) ∧
  (∀ e,
     new_task message = Raised e ->
     execute self context w = (Raised e, w)).
Proof.
  intros Hmsg Htask. split.
  - intros task Hnew.
    assert (Htask_of : task_of context message = Returned task)
      by (unfold task_of; by rewrite Htask).
    destruct (execute_run self context message task w Hmsg Htask_of)
      as (evs & Hrun & _).
    unfold task_announcement in Hrun. rewrite Htask in Hrun.
    eexists _, _, evs. split; [exact Hrun|]. reflexivity.
  - intros e. by apply execute_new_task_raises.
Qed.

(** ** Further properties of the response extractor *)

(** A leaf text that is there sits at the end of a path of objects and
    non-empty lists. *)
Lemma leaf_text_path (response v : json) :
  leaf_text response = Some v ->
  ∃ kvs group rest result rest' results_field message,
    response = JObject kvs ∧
    kvs !! "outputs" = Some (JArray (JObject group :: rest)) ∧
    group !! "outputs" = Some (JArray (JObject result :: rest')) ∧
    result !! "results" = Some (JObject results_field) ∧
    results_field !! "message" = Some (JObject message) ∧
    message !! "text" = Some v.
Proof.
  intros Hleaf. unfold leaf_text in Hleaf.
  destruct response as [| | | | | |kvs]; try discriminate. cbn in Hleaf.
  destruct (kvs !! "outputs") as [[| | | | |[|group rest]|]|] eqn:Hout;
    try discriminate. cbn in Hleaf.
  destruct group as [| | | | | |group]; try discriminate. cbn in Hleaf.
  destruct (group !! "outputs") as [[| | | | |[|result rest']|]|] eqn:Hin;
    try discriminate. cbn in Hleaf.
  destruct result as [| | | | | |result]; try discriminate. cbn in Hleaf.
  destruct (result !! "results") as [[| | | | | |results_field]|] eqn:Hres;
    try discriminate. cbn in Hleaf.
  destruct (results_field !! "message") as [[| | | | | |message]|] eqn:Hmsg;
    try discriminate. cbn in Hleaf.
  by eexists _, _, _, _, _, _, _.
Qed.

Lemma extract_body_leaf (response v : json) :
  leaf_text response = Some v ->
  extract_body response =
    Returned (if truthy v then v else JString no_message_text).
Proof.
  intros Hleaf.
  destruct (leaf_text_path _ _ Hleaf)
    as (kvs & group & rest & result & rest' & results_field & message
        & -> & Hout & Hin & Hres & Hmsg & Htext).
  rewrite (extract_body_result _ _ _ _ _ Hout Hin). cbn.
  rewrite Hres. cbn. rewrite Hmsg. cbn. rewrite Htext. cbn.
  by destruct (truthy v).
Qed.

(** X1: the extractor hands back the leaf value unchanged whenever it is
    truthy, whatever its type: a number, a list or a dict at
    [results.message.text] is returned as it is, not as a string. *)
Theorem extract_message_text_truthy_leaf (response v : json) :
  leaf_text response = Some v ->
  truthy v = true ->
  _extract_message_text response = Returned v.
Proof.
  intros Hleaf Hv. unfold _extract_message_text.
  rewrite (extract_body_leaf _ _ Hleaf), Hv. reflexivity.
Qed.

(** X2: what the extractor returns is never empty: it is a truthy value,
    so a caller always has something to display. *)
Theorem extract_message_text_never_empty (response : json) :
  ∃ text, _extract_message_text response = Returned text ∧ truthy text = true.
Proof.
  unfold _extract_message_text.
  destruct (extract_body response) as [v|e] eqn:Hbody; cbn.
  - exists v. split; [reflexivity|].
    by apply extract_body_returns in Hbody as [->|[_ Hv]].
  - eexists. split; reflexivity.
Qed.

(** X3: the extractor has three results and no other: the fixed fallback,
    the error string of an exception raised by the navigation, or the truthy
    value found at [outputs[0].outputs[0].results.message.text]. *)
Theorem extract_message_text_cases (response : json) :
  _extract_message_text response =
    Returned (JString "No message text found in response") ∨
  (∃ e, extract_body response = Raised e ∧
        _extract_message_text response =
          Returned (JString ("Error extracting response: " +:+ str e))) ∨
  (∃ v, leaf_text response = Some v ∧ truthy v = true ∧
        _extract_message_text response = Returned v).
Proof.
  unfold _extract_message_text.
  destruct (extract_body response) as [v|e] eqn:Hbody; cbn.
  - apply extract_body_returns in Hbody as [->|[Hleaf Hv]]; [by left|].
    right. right. by exists v.
  - right. left. by exists e.
Qed.

(** X4: a response that is not a dict (a list, a string, a number,
    [None]) makes the first [get] fail, and the extractor returns the
    [AttributeError] text naming the type it met. *)
Theorem extract_message_text_not_a_dict (response : json) :
  (∀ kvs, response ≠ JObject kvs) ->
  _extract_message_text response =
    Returned (JString ("Error extracting response: '" +:+ type_name response
                       +:+ "' object has no attribute 'get'")).
Proof.
  intros Hdict. destruct response as [| | | | | |kvs]; try reflexivity.
  by destruct (Hdict kvs).
Qed.

(** X5: only [outputs[0].outputs[0]] is consulted: two responses whose
    first output group has the same first result get the same answer,
    whatever else they hold (later groups, later results, other keys). *)
Theorem extract_message_text_first_only
    (kvs kvs' group group' : gmap string json)
    (rest rest' results results' : list json) (result : json) :
  kvs !! "outputs" = Some (JArray (JObject group :: rest)) ->
  group !! "outputs" = Some (JArray (result :: results)) ->
  kvs' !! "outputs" = Some (JArray (JObject group' :: rest')) ->
  group' !! "outputs" = Some (JArray (result :: results')) ->
  _extract_message_text (JObject kvs) = _extract_message_text (JObject kvs').
Proof.
  intros Hout Hin Hout' Hin'. unfold _extract_message_text.
  rewrite (extract_body_result _ _ _ _ _ Hout Hin).
  rewrite (extract_body_result _ _ _ _ _ Hout' Hin'). reflexivity.
Qed.

(** X6: a [results] or [message] field that is present but is not a dict
    ([null], a list, a string) is not treated as missing: the next [get]
    fails on it, and the extractor returns the [AttributeError] text rather
    than the fixed fallback. *)
Theorem extract_message_text_field_not_a_dict
    (kvs group result : gmap string json) (rest rest' : list json) (v : json) :
  kvs !! "outputs" = Some (JArray (JObject group :: rest)) ->
  group !! "outputs" = Some (JArray (JObject result :: rest')) ->
  (∀ m, v ≠ JObject m) ->
  result !! "results" = Some v ∨
  (∃ results_field, result !! "results" = Some (JObject results_field) ∧
                    results_field !! "message" = Some v) ->
  _extract_message_text (JObject kvs) =
    Returned (JString ("Error extracting response: '" +:+ type_name v
                       +:+ "' object has no attribute 'get'")).
Proof.
  intros Hout Hin Hv Hfield. unfold _extract_message_text.
  rewrite (extract_body_result _ _ _ _ _ Hout Hin). cbn.
  destruct Hfield as [Hres|(results_field & Hres & Hmsg)].
  - rewrite Hres. destruct v as [| | | | | |m]; try reflexivity.
    by destruct (Hv m).
  - rewrite Hres. cbn. rewrite Hmsg.
    destruct v as [| | | | | |m]; try reflexivity. by destruct (Hv m).
Qed.

(** X7: an [outputs] that is a non-empty dict instead of a list passes the
    length test and fails at [outputs[0]] with [KeyError(0)], whose text is
    just ["0"]. *)
Theorem extract_message_text_outputs_dict (kvs outputs : gmap string json) :
  kvs !! "outputs" = Some (JObject outputs) ->
  outputs ≠ ∅ ->
  _extract_message_text (JObject kvs) =
    Returned (JString "Error extracting response: 0").
Proof.
  intros Hout Hne. unfold _extract_message_text, extract_body. cbn.
  rewrite Hout. cbn. unfold and_len_positive. cbn.
  assert (Hsize : size outputs ≠ 0) by (by rewrite map_size_non_empty_iff).
  destruct (size outputs) as [|n]; [done|]. reflexivity.
Qed.

(** ** Further properties of the constructor *)

Lemma rstrip_all (chars s : string) :
  Forall (λ c, c ∈ String.list_ascii_of_string chars)
         (String.list_ascii_of_string s) ->
  rstrip chars s = "".
Proof.
  induction s as [|a s IH]; cbn; [reflexivity|].
  intros Hall. apply Forall_cons in Hall as [Ha Hs].
  rewrite (IH Hs). by rewrite bool_decide_eq_true_2.
Qed.

Lemma rstrip_idempotent (chars s : string) :
  rstrip chars (rstrip chars s) = rstrip chars s.
Proof.
  apply rstrip_fixed. intros t c Ht. by apply rstrip_stops in Ht.
Qed.

(** X8: the emptiness check of the constructor runs before the slashes
    are stripped: a URL made of slashes only is accepted, and the executor
    it yields has the empty string as its URL. *)
Theorem init_accepts_slashes_only (langflow_url : string) (key : option string) :
  langflow_url ≠ "" ->
  Forall (λ c, c = "/"%char) (String.list_ascii_of_string langflow_url) ->
  __init__ langflow_url key = Returned (mkExecutor "" key).
Proof.
  intros Hne Hall. unfold __init__, str_truthy.
  destruct (String.eqb_spec langflow_url ""); [contradiction|]. cbn.
  rewrite rstrip_all; [reflexivity|].
  eapply Forall_impl; [exact Hall|]. cbn. intros c ->. by left.
Qed.

(** X9: building an executor again from the URL an executor holds gives
    the same executor: the stripping is done once and for all. *)
Theorem init_again (configured : string) (key : option string)
    (self : LangflowAgentExecutor) :
  __init__ configured key = Returned self ->
  langflow_url self ≠ "" ->
  __init__ (langflow_url self) (api_key self) = Returned self.
Proof.
  unfold __init__, str_truthy.
  destruct (String.eqb configured ""); cbn; [discriminate|].
  intros [= <-]. cbn. intros Hne.
  destruct (String.eqb_spec (rstrip "/" configured) ""); [contradiction|]. cbn.
  by rewrite rstrip_idempotent.
Qed.

(** ** Further properties of the workflow client *)

(** X10: every POST carries [Content-Type: application/json]; it carries
    [Authorization: Bearer <key>] exactly when a non-empty API key is
    configured (an empty key counts as none); and it carries no other
    header. *)
Theorem call_langflow_headers (self : LangflowAgentExecutor)
    (input_value : string) (session_id : option string) (w : World) :
  ∃ req,
    posts (snd (_call_langflow self input_value session_id w)) = posts w ++ [req] ∧
    Request.headers req !! "Content-Type" = Some "application/json" ∧
    Request.headers req !! "Authorization" =
      (if opt_truthy (api_key self)
       then String.append "Bearer " <$> api_key self else None) ∧
    (∀ name, is_Some (Request.headers req !! name) ->
             name = "Content-Type" ∨ name = "Authorization").
Proof.
  rewrite call_langflow_run. eexists. split; [reflexivity|]. cbn.
  destruct (api_key self) as [key|]; cbn; [destruct (str_truthy key)|].
  - split; [done|]. split; [by rewrite lookup_insert_eq|].
    intros name [v Hv].
    destruct (decide (name = "Authorization")) as [->|Hauth]; [by right|].
    rewrite lookup_insert_ne in Hv by done.
    apply lookup_singleton_Some in Hv as [<- _]. by left.
  - split; [done|]. split; [done|].
    intros name [v Hv]. apply lookup_singleton_Some in Hv as [<- _]. by left.
  - split; [done|]. split; [done|].
    intros name [v Hv]. apply lookup_singleton_Some in Hv as [<- _]. by left.
Qed.

(** X11: the only query parameter a POST ever has is [session_id], and it
    is there exactly when the session id given is a non-empty string ([None]
    and the empty string both send no parameter at all). *)
Theorem call_langflow_session_param (self : LangflowAgentExecutor)
    (input_value : string) (session_id : option string) (w : World) :
  ∃ req,
    posts (snd (_call_langflow self input_value session_id w)) = posts w ++ [req] ∧
    Request.params req =
      (if opt_truthy session_id
       then {[ "session_id" := default "" session_id ]} else ∅).
Proof.
  rewrite call_langflow_run. eexists. split; [reflexivity|]. cbn.
  destruct session_id as [sid|]; cbn; [|reflexivity].
  destruct (str_truthy sid); [|reflexivity]. by rewrite insert_empty.
Qed.

Lemma call_result_decoded (self : LangflowAgentExecutor)
    (input_value : string) (session_id : option string) (response : Response.t) :
  requests_post (langflow_request self input_value session_id) = Returned response ->
  ¬ (400 ≤ Response.status_code response < 600)%Z ->
  call_result self input_value session_id = Response.json response.
Proof.
  intros Hpost Hsc. unfold call_result.
  rewrite Hpost, (raise_for_status_ok response Hsc). reflexivity.
Qed.

(** X12: the client neither swallows nor wraps an error: an exception
    raised by [requests.post], or by [json()] on a reply whose status is not
    an error status, leaves [_call_langflow] as the very same exception,
    after the one POST and with the event queue untouched. *)
Theorem call_langflow_propagates (self : LangflowAgentExecutor)
    (input_value : string) (session_id : option string) (w : World) (e : exn) :
  requests_post (langflow_request self input_value session_id) = Raised e ∨
  (∃ response,
     requests_post (langflow_request self input_value session_id) = Returned response ∧
     ¬ (400 ≤ Response.status_code response < 600)%Z ∧
     Response.json response = Raised e) ->
  _call_langflow self input_value session_id w =
    (Raised e,
     mkWorld (queue w)
             (posts w ++ [langflow_request self input_value session_id])).
Proof.
  intros Hsource. rewrite call_langflow_run. f_equal.
  destruct Hsource as [Hpost|(response & Hpost & Hsc & Hjson)].
  - unfold call_result. by rewrite Hpost.
  - by rewrite (call_result_decoded _ _ _ _ Hpost Hsc).
Qed.

(** ** Further properties of the task lifecycle *)

(** X13: the one POST of an execution goes to the executor's URL, sends
    the user's input as [input_value] with both type fields set to ["chat"],
    and passes the task's [contextId] as the [session_id] parameter (no
    parameter when the [contextId] is empty). *)
Theorem execute_posts_input_and_session (self : LangflowAgentExecutor)
    (context : RequestContext.t) (message : Message.t) (task : Task.t)
    (w : World) :
  RequestContext.message context = Some message ->
  task_of context message = Returned task ->
  ∃ req,
    posts (snd (execute self context w)) = posts w ++ [req] ∧
    Request.url req = langflow_url self ∧
    field "input_value" (Request.json req) =
      Some (JString (RequestContext.get_user_input context)) ∧
    field "output_type" (Request.json req) = Some (JString "chat") ∧
    field "input_type" (Request.json req) = Some (JString "chat") ∧
    Request.params req !! "session_id" =
      (if str_truthy (Task.contextId task)
       then Some (Task.contextId task) else None).
Proof.
  intros Hmsg Htask.
  destruct (execute_run self context message task w Hmsg Htask)
    as (evs & Hrun & _).
  rewrite Hrun. eexists. split; [reflexivity|]. cbn.
  split; [reflexivity|]. repeat (split; [done|]).
  destruct (str_truthy _); [by rewrite lookup_insert_eq|done].
Qed.

(** X14: end to end on the expected reply: when the remote answers with a
    status that is not an error status and a document whose leaf text is a
    non-empty string [S], the execution publishes, after the task
    announcement, the working status, the artifact with text [S], and the
    completed status. *)
Theorem execute_publishes_reply_text (self : LangflowAgentExecutor)
    (context : RequestContext.t) (message : Message.t) (task : Task.t)
    (w : World) (response : Response.t) (document : json) (S : string) :
  RequestContext.message context = Some message ->
  task_of context message = Returned task ->
  requests_post (langflow_request self (RequestContext.get_user_input context)
                   (Some (Task.contextId task))) =
    Returned response ->
  ¬ (400 ≤ Response.status_code response < 600)%Z ->
  Response.json response = Returned document ->
  leaf_text document = Some (JString S) ->
  S ≠ "" ->
  queue (snd (execute self context w)) =
    queue w ++ task_announcement context task
            ++ [working_event task;
                artifact_event task (RequestContext.get_user_input context) S;
                completed_event task].
Proof.
  intros Hmsg Htask Hpost Hsc Hjson Hleaf HS.
  destruct (execute_run self context message task w Hmsg Htask)
    as (evs & Hrun & Hevs).
  rewrite (call_result_decoded _ _ _ _ Hpost Hsc), Hjson in Hevs.
  destruct Hevs as (text & Htext & ->). rewrite Hrun. cbn.
  unfold _extract_message_text in Htext.
  rewrite (extract_body_leaf _ _ Hleaf) in Htext. cbn in Htext.
  unfold str_truthy in Htext.
  destruct (String.eqb_spec S ""); [contradiction|].
  by injection Htext as <-.
Qed.

(** X15: what a reply that decodes does to the task.  Whenever the remote
    answers with a status that is not an error status and a body that
    decodes, the extractor returns a non-empty value; if that value is a
    string (the leaf text, the fixed fallback, or the text of an extraction
    error), the execution publishes the working status, the artifact with
    that string and the completed status; if it is not (a truthy leaf that is
    a number, a list, a dict), the artifact cannot be built and the execution
    publishes the working status and the failed status with the validation
    error.  So a reply fails the task only through a leaf that is truthy and
    not a string. *)
Theorem execute_on_any_document (self : LangflowAgentExecutor)
    (context : RequestContext.t) (message : Message.t) (task : Task.t)
    (w : World) (response : Response.t) (document : json) :
  RequestContext.message context = Some message ->
  task_of context message = Returned task ->
  requests_post (langflow_request self (RequestContext.get_user_input context)
                   (Some (Task.contextId task))) =
    Returned response ->
  ¬ (400 ≤ Response.status_code response < 600)%Z ->
  Response.json response = Returned document ->
  (∃ text,
     _extract_message_text document = Returned text ∧
     truthy text = true ∧
     queue (snd (execute self context w)) =
       queue w ++ task_announcement context task
               ++ working_event task
                  :: match text with
                     | JString s =>
                         [artifact_event task
                            (RequestContext.get_user_input context) s;
                          completed_event task]
                     | _ =>
                         [failed_event task
                            (ValidationError (validation_error_text text))]
                     end) ∧
  ((∀ v, leaf_text document = Some v -> truthy v = true -> ∃ s, v = JString s) ->
   ∃ s,
     _extract_message_text document = Returned (JString s) ∧
     queue (snd (execute self context w)) =
       queue w ++ task_announcement context task
               ++ [working_event task;
                   artifact_event task (RequestContext.get_user_input context) s;
                   completed_event task]).
Proof.
  intros Hmsg Htask Hpost Hsc Hjson.
  destruct (execute_run self context message task w Hmsg Htask)
    as (evs & Hrun & Hevs).
  rewrite (call_result_decoded _ _ _ _ Hpost Hsc), Hjson in Hevs.
  destruct Hevs as (text & Htext & ->).
  assert (Hcases : truthy text = true ∧
            ((∀ v, leaf_text document = Some v -> truthy v = true ->
                   ∃ s, v = JString s) -> ∃ s, text = JString s)).
  { unfold _extract_message_text in Htext.
    destruct (extract_body document) as [v|e] eqn:Hbody; cbn in Htext;
      injection Htext as <-; [|by eauto].
    apply extract_body_returns in Hbody as [->|[Hleaf Hv]]; [by eauto|].
    split; [exact Hv|]. intros Hstr. by apply Hstr. }
  destruct Hcases as [Htruthy Hstring]. split.
  - exists text. split; [exact Htext|]. split; [exact Htruthy|].
    rewrite Hrun. reflexivity.
  - intros Hleaf. destruct (Hstring Hleaf) as [s ->].
    exists s. split; [exact Htext|]. rewrite Hrun. reflexivity.
Qed.

(** X16: end to end on a failing remote: when [requests.post] itself
    raises [e] (no connection, timeout, bad URL), or the body of a reply
    with a non-error status does not decode and [json()] raises [e], the
    execution still returns; it publishes the working status and then the
    failed status with text ["Error processing request: "] followed by
    [str e], and it has tried exactly one POST. *)
Theorem execute_fails_on_client_error (self : LangflowAgentExecutor)
    (context : RequestContext.t) (message : Message.t) (task : Task.t)
    (w : World) (e : exn) :
  RequestContext.message context = Some message ->
  task_of context message = Returned task ->
  requests_post (langflow_request self (RequestContext.get_user_input context)
                   (Some (Task.contextId task))) = Raised e ∨
  (∃ response,
     requests_post (langflow_request self (RequestContext.get_user_input context)
                      (Some (Task.contextId task))) =
       Returned response ∧
     ¬ (400 ≤ Response.status_code response < 600)%Z ∧
     Response.json response = Raised e) ->
  execute self context w =
    (Returned (),
     mkWorld (queue w ++ task_announcement context task
                      ++ [working_event task; failed_event task e])
             (posts w ++ [langflow_request self
                            (RequestContext.get_user_input context)
                            (Some (Task.contextId task))])) ∧
  status_text (failed_event task e) =
    Some ("Error processing request: " +:+ str e).
Proof.
  intros Hmsg Htask Hsource. split; [|reflexivity].
  destruct (execute_run self context message task w Hmsg Htask)
    as (evs & Hrun & Hevs).
  assert (Hcall : call_result self (RequestContext.get_user_input context)
                    (Some (Task.contextId task)) = Raised e).
  { destruct Hsource as [Hpost|(response & Hpost & Hsc & Hjson)].
    - unfold call_result. by rewrite Hpost.
    - by rewrite (call_result_decoded _ _ _ _ Hpost Hsc). }
  rewrite Hcall in Hevs. subst evs. exact Hrun.
Qed.


End Executor.

(** ** Properties of the entry points *)

Lemma init_truthy (url : option string) (key : option string) :
  opt_truthy url = true ->
  __init__ (default "" url) key =
    Returned (mkExecutor (rstrip "/" (default "" url)) key).
Proof.
  destruct url as [url|]; [|discriminate]. cbn. intros Hurl.
  unfold __init__. by rewrite Hurl.
Qed.

(** X18: main.py with a non-empty [LANGFLOW_URL] and a port that [int]
    accepts loads: the host defaults to ["0.0.0.0"] and the port string to
    ["9999"], the executor is built on the URL minus its trailing slashes
    with the key of the environment, and the card URL is on localhost at
    that port whatever the host. *)
Theorem main_load_result (py_int : string -> outcome Z)
    (environ : gmap string string) (url : string) (port : Z) :
  environ !! "LANGFLOW_URL" = Some url ->
  url ≠ "" ->
  py_int (getenv_default environ "A2A_SERVER_PORT" "9999") = Returned port ->
  Main.load py_int environ =
    Returned {| LANGFLOW_URL := url;
                LANGFLOW_API_KEY := environ !! "LANGFLOW_API_KEY";
                A2A_SERVER_HOST := getenv_default environ "A2A_SERVER_HOST" "0.0.0.0";
                A2A_SERVER_PORT := port;
                agent_card_url := "http://localhost:" +:+ pretty port +:+ "/";
                agent_executor :=
                  mkExecutor (rstrip "/" url) (environ !! "LANGFLOW_API_KEY") |}.
Proof.
  intros Hurl Hne Hport. unfold Main.load, getenv, int_of.
  rewrite Hport, Hurl. cbn. unfold str_truthy, __init__, str_truthy.
  destruct (String.eqb_spec url ""); [contradiction|]. reflexivity.
Qed.

(** X19: main.py fails to load in two ways only: with the exception
    [int] raised on the port string, or, the port being fine, with its own
    "LANGFLOW_URL environment variable is required" when the variable is
    unset or empty.  The constructor's "langflow_url is required" is never
    what stops it. *)
Theorem main_load_errors (py_int : string -> outcome Z)
    (environ : gmap string string) (e : exn) :
  Main.load py_int environ = Raised e ->
  py_int (getenv_default environ "A2A_SERVER_PORT" "9999") = Raised e ∨
  ((∃ port, py_int (getenv_default environ "A2A_SERVER_PORT" "9999") = Returned port) ∧
   e = ValueError "LANGFLOW_URL environment variable is required" ∧
   (environ !! "LANGFLOW_URL" = None ∨ environ !! "LANGFLOW_URL" = Some "")).
Proof.
  unfold Main.load, getenv, int_of.
  destruct (py_int _) as [port|e'] eqn:Hport; cbn; [|intros [= ->]; by left].
  destruct (opt_truthy (environ !! "LANGFLOW_URL")) eqn:Hurl; cbn.
  - by rewrite (init_truthy _ _ Hurl).
  - intros [= <-]. right. split; [by exists port|]. split; [reflexivity|].
    destruct (environ !! "LANGFLOW_URL") as [url|]; [|by left]. right.
    cbn in Hurl. unfold str_truthy in Hurl.
    destruct (String.eqb_spec url ""); [by subst|discriminate].
Qed.

(** X20: agents/simple_agent/main.py cannot report a missing port: with
    [A2A_SERVER_PORT] unset, [int(None)] raises a [TypeError] before any of
    the three "is required" checks is reached, whatever the other variables
    hold. *)
Theorem simple_agent_load_without_port (py_int : string -> outcome Z)
    (environ : gmap string string) :
  environ !! "A2A_SERVER_PORT" = None ->
  SimpleAgentMain.load py_int environ =
    Raised (TypeError
      "int() argument must be a string, a bytes-like object or a real number, not 'NoneType'").
Proof.
  intros Hport. unfold SimpleAgentMain.load, getenv, int_of.
  rewrite Hport. reflexivity.
Qed.

(** X21: the ways agents/simple_agent/main.py fails to load: the
    [TypeError] of an unset port; the exception [int] raised on the port
    string; or, the port parsed, the first of its three checks that fails, in
    the order URL, host, port, where the port check fires on port [0] only.
    The constructor's "langflow_url is required" is never what stops it. *)
Theorem simple_agent_load_errors (py_int : string -> outcome Z)
    (environ : gmap string string) (e : exn) :
  SimpleAgentMain.load py_int environ = Raised e ->
  (environ !! "A2A_SERVER_PORT" = None ∧
   e = TypeError
         "int() argument must be a string, a bytes-like object or a real number, not 'NoneType'") ∨
  (∃ s, environ !! "A2A_SERVER_PORT" = Some s ∧ py_int s = Raised e) ∨
  (∃ s port,
     environ !! "A2A_SERVER_PORT" = Some s ∧ py_int s = Returned port ∧
     ((opt_truthy (environ !! "LANGFLOW_URL") = false ∧
       e = ValueError "`LANGFLOW_URL` environment variable is required") ∨
      (opt_truthy (environ !! "LANGFLOW_URL") = true ∧
       opt_truthy (environ !! "A2A_SERVER_HOST") = false ∧
       e = ValueError "`A2A_SERVER_HOST` environment variable is required") ∨
      (opt_truthy (environ !! "LANGFLOW_URL") = true ∧
       opt_truthy (environ !! "A2A_SERVER_HOST") = true ∧
       port = 0%Z ∧
       e = ValueError "`A2A_SERVER_PORT` environment variable is required"))).
Proof.
  unfold SimpleAgentMain.load, getenv, int_of.
  destruct (environ !! "A2A_SERVER_PORT") as [s|] eqn:Hs; cbn;
    [|intros [= <-]; by left].
  destruct (py_int s) as [port|e'] eqn:Hport; cbn;
    [|intros [= ->]; right; left; by exists s].
  intros Hload. right. right. exists s, port. split; [reflexivity|].
  split; [exact Hport|].
  destruct (opt_truthy (environ !! "LANGFLOW_URL")) eqn:Hurl; cbn in Hload;
    [|injection Hload as <-; by left].
  destruct (opt_truthy (environ !! "A2A_SERVER_HOST")) eqn:Hhost; cbn in Hload;
    [|injection Hload as <-; right; by left].
  destruct (Z.eqb_spec port 0) as [->|Hport0]; cbn in Hload;
    [injection Hload as <-; right; by right|].
  by rewrite (init_truthy _ _ Hurl) in Hload.
Qed.

(** X22: the simple-agent entry point is the stricter of the two: every
    environment it loads from, main.py loads from too, and to the very same
    settings, card URL and executor. *)
Theorem simple_agent_load_implies_main_load (py_int : string -> outcome Z)
    (environ : gmap string string) (startup : Startup) :
  SimpleAgentMain.load py_int environ = Returned startup ->
  Main.load py_int environ = Returned startup.
Proof.
  unfold SimpleAgentMain.load, Main.load, getenv, getenv_default, int_of.
  destruct (environ !! "A2A_SERVER_PORT") as [s|]; cbn; [|discriminate].
  destruct (py_int s) as [port|e]; cbn; [|discriminate].
  destruct (opt_truthy (environ !! "LANGFLOW_URL")) eqn:Hurl; cbn; [|discriminate].
  destruct (environ !! "A2A_SERVER_HOST") as [host|]; cbn; [|discriminate].
  destruct (str_truthy host); cbn; [|discriminate].
  destruct (port =? 0)%Z; [discriminate|]. done.
Qed.

(** ** The properties on the scenarios *)

(** The extractor on the expected reply with text ["8"]. *)
Lemma extract_message_text_leaf_witness :
  leaf_text (reply_document (JString "8")) = Some (JString "8") ∧
  "8" ≠ "" ∧
  _extract_message_text (reply_document (JString "8")) = Returned (JString "8").
Proof.
  split; [reflexivity|]. split; [discriminate|].
  apply (extract_message_text_leaf (reply_document (JString "8")) "8");
    [reflexivity|discriminate].
Defined.

(** The extractor on [{"outputs": []}], and on a document that is a list,
    where the first [get] raises. *)
Lemma extract_message_text_total_witness :
  (missing_text empty_outputs_document ∧
   _extract_message_text empty_outputs_document =
     Returned (JString "No message text found in response")) ∧
  (extract_body (JArray []) =
     Raised (AttributeError "'list' object has no attribute 'get'") ∧
   _extract_message_text (JArray []) =
     Returned (JString
       "Error extracting response: 'list' object has no attribute 'get'")).
Proof.
  assert (Hmissing : missing_text empty_outputs_document).
  { apply missing_outputs. vm_compute. reflexivity. }
  split; split; [exact Hmissing| |reflexivity|].
  - exact (proj1 (proj2 (extract_message_text_total empty_outputs_document))
             Hmissing).
  - exact (proj1 (proj2 (proj2 (extract_message_text_total (JArray [])))) _ eq_refl).
Defined.

(** The client against a remote that answers HTTP 500. *)
Lemma call_langflow_error_status_witness :
  remote_replies 500 "Internal Server Error" (Returned JNull)
    (langflow_request sample_executor calculator_query (Some "ctx-7")) =
    Returned (Response.mk 500 "Internal Server Error"
                "http://localhost:7860/api/v1/run/flow?session_id=ctx-7"
                (Returned JNull)) ∧
  (400 ≤ 500 < 600)%Z ∧
  ∃ msg,
    fst (_call_langflow (remote_replies 500 "Internal Server Error" (Returned JNull))
           sample_executor calculator_query (Some "ctx-7") empty_world) =
      Raised (HTTPError msg).
Proof.
  split; [reflexivity|]. split; [lia|].
  destruct (proj1 (call_langflow_error_status
                     (remote_replies 500 "Internal Server Error" (Returned JNull))
                     sample_executor calculator_query (Some "ctx-7") empty_world
                     _ eq_refl)) as (msg & Hmsg & _); [cbn; lia|].
  exists msg. exact Hmsg.
Defined.

(** C7, as stated, fails: a reply with status 300 (Multiple Choices, which
    requests does not follow), not a 2xx status, is not turned into an error;
    its body is read and the call returns the decoded document. *)
Lemma call_langflow_returns_on_300 :
  ¬ (200 ≤ 300 < 300)%Z ∧
  fst (_call_langflow
         (remote_replies 300 "Multiple Choices"
            (Returned (reply_document (JString "8"))))
         sample_executor calculator_query (Some "ctx-7") empty_world) =
    Returned (reply_document (JString "8")).
Proof.
  split; [lia|]. vm_compute. reflexivity.
Qed.

(** The client of an executor built from a URL without a trailing slash. *)
Lemma call_langflow_posts_to_stripped_url_witness :
  __init__ "http://localhost:7860/api/v1/run/flow" (Some "sk-test") =
    Returned sample_executor ∧
  ∃ result req,
    _call_langflow (remote_replies 200 "OK" (Returned JNull))
      sample_executor calculator_query (Some "ctx-7") empty_world =
      (result, mkWorld [] [req]) ∧
    Request.url req = "http://localhost:7860/api/v1/run/flow".
Proof.
  split; [reflexivity|].
  destruct (call_langflow_posts_to_stripped_url
              (remote_replies 200 "OK" (Returned JNull))
              "http://localhost:7860/api/v1/run/flow" (Some "sk-test")
              sample_executor calculator_query (Some "ctx-7") empty_world eq_refl)
    as (result & req & Hrun & Hurl & _).
  exists result, req. split; [exact Hrun|exact Hurl].
Defined.

(** C8, as stated, fails: configured with a URL that ends in a slash, the
    executor posts to the URL without it, not to the configured string. *)
Lemma call_langflow_drops_trailing_slash :
  ∃ self,
    __init__ "http://localhost:7860/api/v1/run/flow/" None = Returned self ∧
    Request.url <$>
      posts (snd (_call_langflow (remote_replies 200 "OK" (Returned JNull))
                    self calculator_query None empty_world)) =
      ["http://localhost:7860/api/v1/run/flow"] ∧
    Request.url <$>
      posts (snd (_call_langflow (remote_replies 200 "OK" (Returned JNull))
                    self calculator_query None empty_world)) ≠
      ["http://localhost:7860/api/v1/run/flow/"].
Proof.
  eexists. split; [reflexivity|]. split; [reflexivity|]. discriminate.
Qed.

(** An execution with an inbound message and a current task, against a
    remote whose reply has the number 5 as its leaf: building the artifact
    raises inside the [try], and the execution returns with the failed status
    as its last event. *)
Lemma execute_raises_only_before_try_witness :
  RequestContext.message context_with_task = Some inbound_message ∧
  task_of sample_new_task context_with_task inbound_message =
    Returned existing_task ∧
  execute sample_new_task
    (remote_replies 200 "OK" (Returned (reply_document (JInt 5))))
    sample_validation_error_text sample_executor context_with_task empty_world =
    (Returned (),
     mkWorld [working_event existing_task;
              failed_event existing_task
                (ValidationError (sample_validation_error_text (JInt 5)))]
             [langflow_request sample_executor calculator_query (Some "ctx-7")]).
Proof.
  split; [reflexivity|]. split; [reflexivity|].
  destruct (proj1 (execute_raises_only_before_try sample_new_task
                     (remote_replies 200 "OK" (Returned (reply_document (JInt 5))))
                     sample_validation_error_text
                     sample_executor context_with_task empty_world)
              inbound_message existing_task eq_refl eq_refl)
    as (w' & evs & last & Hrun & _).
  rewrite Hrun. injection Hrun as <-. reflexivity.
Defined.

(** C1, as stated, fails: without an inbound message [execute] raises to
    its caller, and no failed status event is enqueued. *)
Lemma execute_raises_without_message :
  execute sample_new_task
    (remote_replies 200 "OK" (Returned (reply_document (JString "8"))))
    sample_validation_error_text
    sample_executor context_without_message empty_world =
    (Raised (Exception "No message in context"), empty_world) ∧
  ¬ (∃ w', execute sample_new_task
             (remote_replies 200 "OK" (Returned (reply_document (JString "8"))))
             sample_validation_error_text
             sample_executor context_without_message empty_world =
             (Returned (), w')) ∧
  queue empty_world = [].
Proof.
  split; [reflexivity|]. split; [|reflexivity]. intros [w' [=]].
Qed.

(** The calculator scenario on a context with a current task: the remote
    returns text ["8"], the artifact carries ["8"], the task completes. *)
Lemma execute_success_events_witness :
  RequestContext.message context_with_task = Some inbound_message ∧
  task_of sample_new_task context_with_task inbound_message =
    Returned existing_task ∧
  fst (_call_langflow
         (remote_replies 200 "OK" (Returned (reply_document (JString "8"))))
         sample_executor calculator_query (Some "ctx-7")
         (world_at_call context_with_task existing_task empty_world)) =
    Returned (reply_document (JString "8")) ∧
  _extract_message_text (reply_document (JString "8")) = Returned (JString "8") ∧
  queue (snd (execute sample_new_task
                (remote_replies 200 "OK" (Returned (reply_document (JString "8"))))
                sample_validation_error_text
                sample_executor context_with_task empty_world)) =
    [working_event existing_task;
     artifact_event existing_task calculator_query "8";
     completed_event existing_task].
Proof.
  split; [reflexivity|]. split; [reflexivity|]. split; [reflexivity|].
  split; [reflexivity|].
  destruct (execute_success_events sample_new_task
              (remote_replies 200 "OK" (Returned (reply_document (JString "8"))))
              sample_validation_error_text
              sample_executor context_with_task inbound_message existing_task
              empty_world (reply_document (JString "8")) "8"
              eq_refl eq_refl eq_refl eq_refl)
    as (w' & Hrun & Hqueue & _).
  rewrite Hrun. cbn [snd]. rewrite Hqueue. reflexivity.
Defined.

(** C2, as stated, fails: on a context without a current task the call
    succeeds and four events are enqueued, the new task first, not the three
    of the claim. *)
Lemma execute_success_with_new_task :
  fst (_call_langflow
         (remote_replies 200 "OK" (Returned (reply_document (JString "8"))))
         sample_executor calculator_query (Some "ctx-1")
         (world_at_call context_without_task (Task.mk "task-1" "ctx-1" submitted)
            empty_world)) =
    Returned (reply_document (JString "8")) ∧
  queue (snd (execute sample_new_task
                (remote_replies 200 "OK" (Returned (reply_document (JString "8"))))
                sample_validation_error_text
                sample_executor context_without_task empty_world)) =
    [EvTask (Task.mk "task-1" "ctx-1" submitted);
     working_event (Task.mk "task-1" "ctx-1" submitted);
     artifact_event (Task.mk "task-1" "ctx-1" submitted) calculator_query "8";
     completed_event (Task.mk "task-1" "ctx-1" submitted)] ∧
  queue (snd (execute sample_new_task
                (remote_replies 200 "OK" (Returned (reply_document (JString "8"))))
                sample_validation_error_text
                sample_executor context_without_task empty_world)) ≠
    [working_event (Task.mk "task-1" "ctx-1" submitted);
     artifact_event (Task.mk "task-1" "ctx-1" submitted) calculator_query "8";
     completed_event (Task.mk "task-1" "ctx-1" submitted)].
Proof.
  split; [reflexivity|]. split; [reflexivity|]. discriminate.
Qed.

(** The HTTP 500 scenario on a context with a current task: the working
    status, then the failed status with the transport error in its text. *)
Lemma execute_failure_events_witness :
  RequestContext.message context_with_task = Some inbound_message ∧
  task_of sample_new_task context_with_task inbound_message =
    Returned existing_task ∧
  fst (_call_langflow
         (remote_replies 500 "Internal Server Error" (Returned JNull))
         sample_executor calculator_query (Some "ctx-7")
         (world_at_call context_with_task existing_task empty_world)) =
    Raised (HTTPError
      "500 Server Error: Internal Server Error for url: http://localhost:7860/api/v1/run/flow?session_id=ctx-7") ∧
  queue (snd (execute sample_new_task
                (remote_replies 500 "Internal Server Error" (Returned JNull))
                sample_validation_error_text
                sample_executor context_with_task empty_world)) =
    [working_event existing_task;
     failed_event existing_task (HTTPError
       "500 Server Error: Internal Server Error for url: http://localhost:7860/api/v1/run/flow?session_id=ctx-7")].
Proof.
  split; [reflexivity|]. split; [reflexivity|]. split; [reflexivity|].
  destruct (execute_failure_events sample_new_task
              (remote_replies 500 "Internal Server Error" (Returned JNull))
              sample_validation_error_text
              sample_executor context_with_task inbound_message existing_task
              empty_world _ eq_refl eq_refl eq_refl)
    as (w' & Hrun & Hqueue & _).
  rewrite Hrun. cbn [snd]. rewrite Hqueue. reflexivity.
Defined.

(** C3, as stated, fails: on a context without a current task the call
    raises and three events are enqueued, the new task first, not the two of
    the claim. *)
Lemma execute_failure_with_new_task :
  fst (_call_langflow
         (remote_replies 500 "Internal Server Error" (Returned JNull))
         sample_executor calculator_query (Some "ctx-1")
         (world_at_call context_without_task (Task.mk "task-1" "ctx-1" submitted)
            empty_world)) =
    Raised (HTTPError
      "500 Server Error: Internal Server Error for url: http://localhost:7860/api/v1/run/flow?session_id=ctx-1") ∧
  queue (snd (execute sample_new_task
                (remote_replies 500 "Internal Server Error" (Returned JNull))
                sample_validation_error_text
                sample_executor context_without_task empty_world)) =
    [EvTask (Task.mk "task-1" "ctx-1" submitted);
     working_event (Task.mk "task-1" "ctx-1" submitted);
     failed_event (Task.mk "task-1" "ctx-1" submitted) (HTTPError
       "500 Server Error: Internal Server Error for url: http://localhost:7860/api/v1/run/flow?session_id=ctx-1")] ∧
  queue (snd (execute sample_new_task
                (remote_replies 500 "Internal Server Error" (Returned JNull))
                sample_validation_error_text
                sample_executor context_without_task empty_world)) ≠
    [working_event (Task.mk "task-1" "ctx-1" submitted);
     failed_event (Task.mk "task-1" "ctx-1" submitted) (HTTPError
       "500 Server Error: Internal Server Error for url: http://localhost:7860/api/v1/run/flow?session_id=ctx-1")].
Proof.
  split; [reflexivity|]. split; [reflexivity|]. discriminate.
Qed.

(** The [{"outputs": []}] scenario: one POST, and one final event, the
    completed status. *)
Lemma execute_one_call_one_final_witness :
  RequestContext.message context_with_task = Some inbound_message ∧
  task_of sample_new_task context_with_task inbound_message =
    Returned existing_task ∧
  ∃ w',
    execute sample_new_task
      (remote_replies 200 "OK" (Returned empty_outputs_document))
      sample_validation_error_text
      sample_executor context_with_task empty_world = (Returned (), w') ∧
    length (posts w') = 1 ∧
    List.filter is_final (queue w') = [completed_event existing_task].
Proof.
  split; [reflexivity|]. split; [reflexivity|].
  destruct (execute_one_call_one_final sample_new_task
              (remote_replies 200 "OK" (Returned empty_outputs_document))
              sample_validation_error_text
              sample_executor context_with_task inbound_message existing_task
              empty_world eq_refl eq_refl)
    as (w' & evs & Hrun & Hposts & _).
  exists w'. split; [exact Hrun|]. split; [by rewrite Hposts|].
  injection Hrun as <-. reflexivity.
Defined.

(** C4, as stated, fails: without an inbound message the execution makes
    no call to [_call_langflow] and enqueues no final event. *)
Lemma execute_without_message_no_call :
  posts (snd (execute sample_new_task
                (remote_replies 200 "OK" (Returned (reply_document (JString "8"))))
                sample_validation_error_text
                sample_executor context_without_message empty_world)) = [] ∧
  length (List.filter is_final
            (queue (snd (execute sample_new_task
                           (remote_replies 200 "OK"
                              (Returned (reply_document (JString "8"))))
                           sample_validation_error_text
                           sample_executor context_without_message empty_world))))
    ≠ 1.
Proof.
  split; [reflexivity|]. discriminate.
Qed.

(** A context with a message and no current task: the new task comes
    first, then the working status. *)
Lemma execute_announces_new_task_witness :
  RequestContext.message context_without_task = Some inbound_message ∧
  RequestContext.current_task context_without_task = None ∧
  sample_new_task inbound_message = Returned (Task.mk "task-1" "ctx-1" submitted) ∧
  ∃ rest,
    queue (snd (execute sample_new_task
                  (remote_replies 200 "OK" (Returned (reply_document (JString "8"))))
                  sample_validation_error_text
                  sample_executor context_without_task empty_world)) =
      EvTask (Task.mk "task-1" "ctx-1" submitted)
        :: working_event (Task.mk "task-1" "ctx-1" submitted) :: rest.
Proof.
  split; [reflexivity|]. split; [reflexivity|]. split; [reflexivity|].
  destruct (proj1 (execute_announces_new_task sample_new_task
                     (remote_replies 200 "OK" (Returned (reply_document (JString "8"))))
                     sample_validation_error_text
                     sample_executor context_without_task inbound_message
                     empty_world eq_refl eq_refl)
              (Task.mk "task-1" "ctx-1" submitted) eq_refl)
    as (result & w' & rest & Hrun & Hqueue).
  exists rest. rewrite Hrun. exact Hqueue.
Defined.

(** C10, as stated, fails: on a context that carries a message with an
    empty text and no current task, [new_task] refuses the message; no task
    is made, [execute] raises, and nothing is enqueued, no [Task] first. *)
Lemma execute_new_task_refuses_message :
  RequestContext.message context_with_empty_message = Some empty_message ∧
  RequestContext.current_task context_with_empty_message = None ∧
  execute sample_new_task
    (remote_replies 200 "OK" (Returned (reply_document (JString "8"))))
    sample_validation_error_text
    sample_executor context_with_empty_message empty_world =
    (Raised (ValueError "TextPart content cannot be empty"), empty_world) ∧
  ¬ (∃ task rest,
       queue (snd (execute sample_new_task
                     (remote_replies 200 "OK"
                        (Returned (reply_document (JString "8"))))
                     sample_validation_error_text
                     sample_executor context_with_empty_message empty_world)) =
         EvTask task :: rest).
Proof.
  split; [reflexivity|]. split; [reflexivity|]. split; [reflexivity|].
  intros (task & rest & [=]).
Qed.

(** ** The further properties on the scenarios *)

(** A number at the leaf comes back as a number. *)
Lemma extract_message_text_truthy_leaf_witness :
  leaf_text (reply_document (JInt 5)) = Some (JInt 5) ∧
  truthy (JInt 5) = true ∧
  _extract_message_text (reply_document (JInt 5)) = Returned (JInt 5).
Proof.
  split; [reflexivity|]. split; [reflexivity|].
  apply (extract_message_text_truthy_leaf (reply_document (JInt 5)) (JInt 5));
    reflexivity.
Defined.

(** A reply that is JSON [null]. *)
Lemma extract_message_text_not_a_dict_witness :
  (∀ kvs, JNull ≠ JObject kvs) ∧
  _extract_message_text JNull =
    Returned (JString
      "Error extracting response: 'NoneType' object has no attribute 'get'").
Proof.
  split; [discriminate|].
  apply (extract_message_text_not_a_dict JNull). discriminate.
Defined.

(** The text of a later result or a later group is never found: the
    document answers like the one that holds the first, empty result only. *)
Lemma extract_message_text_first_only_witness :
  _extract_message_text late_text_document =
    _extract_message_text
      (JObject {[ "outputs" := JArray [
         JObject {[ "outputs" := JArray [JObject ∅] ]} ] ]}) ∧
  _extract_message_text late_text_document =
    Returned (JString "No message text found in response").
Proof.
  split; [|reflexivity].
  eapply (extract_message_text_first_only _ _ _ _ _ _ _ _ (JObject ∅));
    reflexivity.
Defined.

(** ["results": null] is not read as a missing field. *)
Lemma extract_message_text_field_not_a_dict_witness :
  (∀ m, JNull ≠ JObject m) ∧
  _extract_message_text null_results_document =
    Returned (JString
      "Error extracting response: 'NoneType' object has no attribute 'get'").
Proof.
  split; [discriminate|].
  eapply (extract_message_text_field_not_a_dict _ _ {[ "results" := JNull ]} _ _ JNull);
    [reflexivity|reflexivity|discriminate|by left].
Defined.

(** [{"outputs": {"first": null}}]. *)
Lemma extract_message_text_outputs_dict_witness :
  ({[ "first" := JNull ]} : gmap string json) ≠ ∅ ∧
  _extract_message_text
    (JObject {[ "outputs" := JObject {[ "first" := JNull ]} ]}) =
    Returned (JString "Error extracting response: 0").
Proof.
  assert (Hne : ({[ "first" := JNull ]} : gmap string json) ≠ ∅)
    by apply map_non_empty_singleton.
  split; [exact Hne|].
  apply (extract_message_text_outputs_dict _ {[ "first" := JNull ]});
    [reflexivity|exact Hne].
Defined.

(** The URL ["///"]. *)
Lemma init_accepts_slashes_only_witness :
  "///" ≠ "" ∧
  __init__ "///" (Some "sk-test") = Returned (mkExecutor "" (Some "sk-test")).
Proof.
  split; [discriminate|].
  apply (init_accepts_slashes_only "///" (Some "sk-test")); [discriminate|].
  repeat constructor.
Defined.

(** An executor configured with a trailing slash, built again from its
    own URL. *)
Lemma init_again_witness :
  __init__ "http://localhost:7860/api/v1/run/flow/" (Some "sk-test") =
    Returned sample_executor ∧
  __init__ (langflow_url sample_executor) (api_key sample_executor) =
    Returned sample_executor.
Proof.
  split; [reflexivity|].
  apply (init_again "http://localhost:7860/api/v1/run/flow/" (Some "sk-test"));
    [reflexivity|discriminate].
Defined.

(** The client against a remote that cannot be reached. *)
Lemma call_langflow_propagates_witness :
  fst (_call_langflow remote_down sample_executor calculator_query
         (Some "ctx-7") empty_world) =
    Raised (RequestException "Connection refused") ∧
  length (posts (snd (_call_langflow remote_down sample_executor
                        calculator_query (Some "ctx-7") empty_world))) = 1.
Proof.
  rewrite (call_langflow_propagates remote_down sample_executor calculator_query
             (Some "ctx-7") empty_world (RequestException "Connection refused"));
    [by split|by left].
Defined.

(** The POST of the calculator scenario. *)
Lemma execute_posts_input_and_session_witness :
  RequestContext.message context_with_task = Some inbound_message ∧
  task_of sample_new_task context_with_task inbound_message =
    Returned existing_task ∧
  ∃ req,
    posts (snd (execute sample_new_task remote_down sample_validation_error_text
                  sample_executor context_with_task empty_world)) = [req] ∧
    Request.url req = "http://localhost:7860/api/v1/run/flow" ∧
    field "input_value" (Request.json req) = Some (JString calculator_query) ∧
    Request.params req !! "session_id" = Some "ctx-7".
Proof.
  split; [reflexivity|]. split; [reflexivity|].
  destruct (execute_posts_input_and_session sample_new_task remote_down
              sample_validation_error_text
              sample_executor context_with_task inbound_message existing_task
              empty_world eq_refl eq_refl)
    as (req & Hposts & Hurl & Hinput & _ & _ & Hsession).
  exists req. split; [exact Hposts|]. split; [exact Hurl|].
  split; [exact Hinput|exact Hsession].
Defined.

(** The calculator scenario on a context without a current task, from the
    remote's reply to the published events. *)
Lemma execute_publishes_reply_text_witness :
  RequestContext.message context_without_task = Some inbound_message ∧
  task_of sample_new_task context_without_task inbound_message =
    Returned (Task.mk "task-1" "ctx-1" submitted) ∧
  ¬ (400 ≤ 200 < 600)%Z ∧
  leaf_text (reply_document (JString "8")) = Some (JString "8") ∧
  "8" ≠ "" ∧
  queue (snd (execute sample_new_task
                (remote_replies 200 "OK" (Returned (reply_document (JString "8"))))
                sample_validation_error_text
                sample_executor context_without_task empty_world)) =
    [EvTask (Task.mk "task-1" "ctx-1" submitted);
     working_event (Task.mk "task-1" "ctx-1" submitted);
     artifact_event (Task.mk "task-1" "ctx-1" submitted) calculator_query "8";
     completed_event (Task.mk "task-1" "ctx-1" submitted)].
Proof.
  split; [reflexivity|]. split; [reflexivity|]. split; [lia|].
  split; [reflexivity|]. split; [discriminate|].
  apply (execute_publishes_reply_text sample_new_task
           (remote_replies 200 "OK" (Returned (reply_document (JString "8"))))
           sample_validation_error_text
           sample_executor context_without_task inbound_message
           (Task.mk "task-1" "ctx-1" submitted) empty_world
           (Response.mk 200 "OK"
              "http://localhost:7860/api/v1/run/flow?session_id=ctx-1"
              (Returned (reply_document (JString "8"))))
           (reply_document (JString "8")) "8");
    [reflexivity|reflexivity|reflexivity|cbn; lia|reflexivity|reflexivity
    |discriminate].
Defined.

(** Two replies that decode.  A JSON list: the task completes, and the
    artifact carries the text of the extraction error.  A document whose
    leaf is the number 5: the artifact cannot be built, and the task fails. *)
Lemma execute_on_any_document_witness :
  RequestContext.message context_with_task = Some inbound_message ∧
  task_of sample_new_task context_with_task inbound_message =
    Returned existing_task ∧
  ¬ (400 ≤ 200 < 600)%Z ∧
  queue (snd (execute sample_new_task
                (remote_replies 200 "OK" (Returned (JArray [])))
                sample_validation_error_text
                sample_executor context_with_task empty_world)) =
    [working_event existing_task;
     artifact_event existing_task calculator_query
       "Error extracting response: 'list' object has no attribute 'get'";
     completed_event existing_task] ∧
  queue (snd (execute sample_new_task
                (remote_replies 200 "OK" (Returned (reply_document (JInt 5))))
                sample_validation_error_text
                sample_executor context_with_task empty_world)) =
    [working_event existing_task;
     failed_event existing_task
       (ValidationError (sample_validation_error_text (JInt 5)))].
Proof.
  split; [reflexivity|]. split; [reflexivity|]. split; [lia|]. split.
  - destruct (proj1 (execute_on_any_document sample_new_task
                       (remote_replies 200 "OK" (Returned (JArray [])))
                       sample_validation_error_text
                       sample_executor context_with_task inbound_message
                       existing_task empty_world
                       (Response.mk 200 "OK"
                          "http://localhost:7860/api/v1/run/flow?session_id=ctx-7"
                          (Returned (JArray [])))
                       (JArray []) eq_refl eq_refl eq_refl
                       ltac:(cbn; lia) eq_refl))
      as (text & Htext & _ & Hqueue).
    rewrite Hqueue. injection Htext as <-. reflexivity.
  - destruct (proj1 (execute_on_any_document sample_new_task
                       (remote_replies 200 "OK" (Returned (reply_document (JInt 5))))
                       sample_validation_error_text
                       sample_executor context_with_task inbound_message
                       existing_task empty_world
                       (Response.mk 200 "OK"
                          "http://localhost:7860/api/v1/run/flow?session_id=ctx-7"
                          (Returned (reply_document (JInt 5))))
                       (reply_document (JInt 5)) eq_refl eq_refl eq_refl
                       ltac:(cbn; lia) eq_refl))
      as (text & Htext & _ & Hqueue).
    rewrite Hqueue. injection Htext as <-. reflexivity.
Defined.

(** An execution against a remote that cannot be reached. *)
Lemma execute_fails_on_client_error_witness :
  RequestContext.message context_with_task = Some inbound_message ∧
  task_of sample_new_task context_with_task inbound_message =
    Returned existing_task ∧
  remote_down (langflow_request sample_executor calculator_query (Some "ctx-7")) =
    Raised (RequestException "Connection refused") ∧
  queue (snd (execute sample_new_task remote_down sample_validation_error_text
                sample_executor context_with_task empty_world)) =
    [working_event existing_task;
     failed_event existing_task (RequestException "Connection refused")] ∧
  status_text (failed_event existing_task (RequestException "Connection refused")) =
    Some "Error processing request: Connection refused".
Proof.
  split; [reflexivity|]. split; [reflexivity|]. split; [reflexivity|].
  destruct (execute_fails_on_client_error sample_new_task remote_down
              sample_validation_error_text
              sample_executor context_with_task inbound_message existing_task
              empty_world (RequestException "Connection refused")
              eq_refl eq_refl)
    as [Hrun Htext]; [by left|].
  rewrite Hrun. split; [reflexivity|exact Htext].
Defined.


(** main.py with the URL set and nothing else. *)
Lemma main_load_result_witness :
  url_only_environ !! "LANGFLOW_URL" =
    Some "http://localhost:7860/api/v1/run/flow" ∧
  sample_int (getenv_default url_only_environ "A2A_SERVER_PORT" "9999") =
    Returned 9999%Z ∧
  Main.load sample_int url_only_environ =
    Returned {| LANGFLOW_URL := "http://localhost:7860/api/v1/run/flow";
                LANGFLOW_API_KEY := None;
                A2A_SERVER_HOST := "0.0.0.0";
                A2A_SERVER_PORT := 9999;
                agent_card_url := "http://localhost:9999/";
                agent_executor :=
                  mkExecutor "http://localhost:7860/api/v1/run/flow" None |}.
Proof.
  split; [reflexivity|]. split; [reflexivity|].
  apply (main_load_result sample_int url_only_environ
           "http://localhost:7860/api/v1/run/flow" 9999);
    [reflexivity|discriminate|reflexivity].
Defined.

(** main.py with an empty environment. *)
Lemma main_load_errors_witness :
  Main.load sample_int ∅ =
    Raised (ValueError "LANGFLOW_URL environment variable is required") ∧
  (∅ : gmap string string) !! "LANGFLOW_URL" = None.
Proof.
  assert (Hload : Main.load sample_int ∅ =
            Raised (ValueError "LANGFLOW_URL environment variable is required"))
    by reflexivity.
  split; [exact Hload|].
  destruct (main_load_errors sample_int ∅ _ Hload)
    as [Hport|(_ & _ & [Hurl|Hurl])]; [discriminate|exact Hurl|discriminate].
Defined.

(** The simple agent with the URL set and nothing else. *)
Lemma simple_agent_load_without_port_witness :
  url_only_environ !! "A2A_SERVER_PORT" = None ∧
  SimpleAgentMain.load sample_int url_only_environ =
    Raised (TypeError
      "int() argument must be a string, a bytes-like object or a real number, not 'NoneType'").
Proof.
  split; [reflexivity|].
  apply (simple_agent_load_without_port sample_int url_only_environ).
  reflexivity.
Defined.

(** The simple agent with port ["0"]: the port check is the one that fires. *)
Lemma simple_agent_load_errors_witness :
  SimpleAgentMain.load sample_int (<[ "A2A_SERVER_PORT" := "0" ]> sample_environ) =
    Raised (ValueError "`A2A_SERVER_PORT` environment variable is required") ∧
  ∃ s, <[ "A2A_SERVER_PORT" := "0" ]> sample_environ !! "A2A_SERVER_PORT" = Some s ∧
       sample_int s = Returned 0%Z.
Proof.
  assert (Hload : SimpleAgentMain.load sample_int
                    (<[ "A2A_SERVER_PORT" := "0" ]> sample_environ) =
            Raised (ValueError "`A2A_SERVER_PORT` environment variable is required"))
    by reflexivity.
  split; [exact Hload|].
  destruct (simple_agent_load_errors sample_int
              (<[ "A2A_SERVER_PORT" := "0" ]> sample_environ) _ Hload)
    as [[Hnone _]|[(s & Hs & Hint)|(s & port & Hs & Hint & Hcheck)]].
  - discriminate.
  - rewrite lookup_insert_eq in Hs. injection Hs as <-. discriminate.
  - exists s. split; [exact Hs|].
    destruct Hcheck as [[_ [=]]|[(_ & _ & [=])|(_ & _ & -> & _)]]. exact Hint.
Defined.

(** Both entry points on the full environment. *)
Lemma simple_agent_load_implies_main_load_witness :
  SimpleAgentMain.load sample_int sample_environ =
    Returned {| LANGFLOW_URL := "http://localhost:7860/api/v1/run/flow/";
                LANGFLOW_API_KEY := None;
                A2A_SERVER_HOST := "127.0.0.1";
                A2A_SERVER_PORT := 8080;
                agent_card_url := "http://localhost:8080/";
                agent_executor :=
                  mkExecutor "http://localhost:7860/api/v1/run/flow" None |} ∧
  Main.load sample_int sample_environ = SimpleAgentMain.load sample_int sample_environ.
Proof.
  split; [reflexivity|].
  by rewrite (simple_agent_load_implies_main_load sample_int sample_environ _ eq_refl).
Defined.
